(** * Traveler backend: the image ingestion route and its models

    A shallow embedding of [routes/trips.js] (the [POST /trips/:id] handler
    with its two Vision helpers), of [models/trip.js] ([Trip.addImage]) and of
    [models/user.js] ([User.authenticate]), over a small model of the
    relational schema that ships with the routes.

    The other methods of the two models ([Trip.create], [Trip.get],
    [Trip.getTripImages], [Trip.remove], [User.register], [User.get],
    [User.remove]) run on the same tables, with the sequences of [trips] and
    [users] beside them.

    JavaScript objects that the code treats as dictionaries (query result
    rows, [tagData], [imageData]) are finite maps from property names to
    values; the external services (Vision, S3, the clock, bcrypt) are
    parameters of the model. *)

From Stdlib Require Import ZArith.
From stdpp Require Import base strings gmap list pretty.
From stdpp Require Import sorting.

Local Open Scope string_scope.
Local Open Scope Z_scope.

Set Warnings "-clear-no-such-hyp".

(** ** Values and objects *)

(** The JavaScript values that flow through the modelled code; [VUndefined]
    is what reading a missing property or an out-of-range index gives. *)
Inductive value : Type :=
  | VUndefined
  | VNull
  | VStr (s : string)
  | VNum (n : Z).

#[global] Instance value_eq_dec : EqDecision value.
Proof. solve_decision. Defined.

(** [o.k] on an object used as a dictionary. *)
Definition get (o : gmap string value) (k : string) : value :=
  default VUndefined (o !! k).

(** [a[i]] on an array of strings. *)
Definition index (a : list string) (i : nat) : value :=
  match a !! i with
  | Some s => VStr s
  | None => VUndefined
  end.

(** JavaScript truthiness of a string-valued property that may be missing. *)
Definition truthy (o : option string) : bool :=
  match o with
  | Some s => negb (String.eqb s "")
  | None => false
  end.

(** ** Errors and results *)

(** The error classes the code names ([expressError]), the errors raised by
    the database driver (with their SQLSTATE) and by the service clients. *)
Inductive Error : Type :=
  | NotFoundError (msg : string)
  | BadRequestError (msg : string)
  | UnauthorizedError (msg : string)
  | DatabaseError (sqlstate : string)
  | ServiceError (msg : string).

Inductive Result (A : Type) : Type :=
  | Ok (a : A)
  | Throw (e : Error).
Arguments Ok {A} a.
Arguments Throw {A} e.

(** ** The relational store *)

(** A row is a map from column names to values. *)
Record Database : Type := mkDatabase {
  users : list (gmap string value);
  trips : list (gmap string value);
  images : list (gmap string value);
  images_id_seq : Z
}.

(** The driver sends [undefined] parameters as [NULL]. *)
Definition sql_param (v : value) : value :=
  match v with
  | VUndefined => VNull
  | _ => v
  end.

(** Strings are the UTF-8 bytes that the driver sends; a character starts
    at every byte that is not a continuation byte. *)
Definition continuation (a : Ascii.ascii) : bool :=
  let n := Ascii.N_of_ascii a in (128 <=? n)%N && (n <? 192)%N.

(** The number of characters of a string. *)
Fixpoint chars (s : string) : nat :=
  match s with
  | EmptyString => 0%nat
  | String a s' => if continuation a then chars s' else S (chars s')
  end.

(** The first [n] characters of a string, and what follows them. *)
Fixpoint split_chars (n : nat) (s : string) : string * string :=
  match s with
  | EmptyString => (EmptyString, EmptyString)
  | String a s' =>
      if continuation a
      then let '(kept, excess) := split_chars n s' in (String a kept, excess)
      else match n with
           | O => (EmptyString, s)
           | S n' =>
               let '(kept, excess) := split_chars n' s' in
               (String a kept, excess)
           end
  end.

Fixpoint all_spaces (s : string) : bool :=
  match s with
  | EmptyString => true
  | String a s' => Ascii.eqb a (Ascii.ascii_of_nat 32) && all_spaces s'
  end.

(** [VARCHAR(25)] (the tag columns of [images], three columns of [users]):
    what the column stores for a value. A string of more than 25
    characters is refused, unless the excess is all spaces, which are cut
    off. *)
Definition varchar25 (v : value) : option value :=
  match v with
  | VStr s =>
      let '(kept, excess) := split_chars 25 s in
      if all_spaces excess then Some (VStr kept) else None
  | _ => Some v
  end.

(** The column accepts the value. *)
Definition fits_varchar25 (v : value) : bool :=
  match varchar25 v with
  | Some _ => true
  | None => false
  end.

(** The value as the column stores it. *)
Definition stored25 (v : value) : value := default v (varchar25 v).

(** [INTEGER]: 32 bits. *)
Definition int4 (n : Z) : bool :=
  (-2147483648 <=? n) && (n <=? 2147483647).

(** A parameter for an [INTEGER] column that refers to the key of [rows].
    The model does not stop its sequences where [INTEGER] ends, so a key
    that a row holds counts as an [INTEGER] too. *)
Definition integer_key (rows : list (gmap string value)) (v : value) : bool :=
  match v with
  | VNum n => int4 n || bool_decide (Exists (λ r, get r "id" = v) rows)
  | _ => true
  end.

Definition is_null (v : value) : bool :=
  match v with
  | VNull | VUndefined => true
  | _ => false
  end.

(** [trip_id INTEGER REFERENCES trips]: a non-null value must be the id of a
    row of [trips]. *)
Definition references_trip (d : Database) (v : value) : bool :=
  is_null v || bool_decide (Exists (λ t, get t "id" = v) (trips d)).

(** The statements the modelled code sends. *)
Inductive Query : Type :=
  | InsertImage (params : list value)
  | SelectUserByUsername (params : list value).

(** Columns named by [INSERT INTO images (...)] in [Trip.addImage]. *)
Definition insert_image_columns : list string :=
  ["file_url"; "trip_id"; "caption"; "tag1"; "tag2"; "tag3"].

(** Columns and aliases of the [SELECT] in [User.authenticate]. *)
Definition select_user_columns : list (string * string) :=
  [("username", "username"); ("password", "password");
   ("first_name", "firstName"); ("last_name", "lastName");
   ("profile_image", "profImage"); ("about", "about")].

Definition project (cols : list (string * string)) (r : gmap string value)
  : gmap string value :=
  list_to_map ((λ c, (c.2, default VNull (r !! c.1))) <$> cols).

(** A value of the [SERIAL] sequence of [images.id] has been drawn. *)
Definition draw_id (d : Database) : Database :=
  mkDatabase (users d) (trips d) (images d) (images_id_seq d + 1).

(** The tags of a row of parameters, as their columns store them. *)
Definition store_tags (r : gmap string value) : gmap string value :=
  <["tag1" := stored25 (get r "tag1")]>
    (<["tag2" := stored25 (get r "tag2")]>
       (<["tag3" := stored25 (get r "tag3")]> r)).

(** [db.query]: the result rows or the driver's error, and the new store.
    The insert first converts its parameters: a [trip_id] outside
    [INTEGER] is refused (22003) and a tag that its column cannot hold is
    refused (22001), both before anything is drawn. Then it draws the new
    id and checks [NOT NULL] (23502) and the foreign key (23503): an insert
    refused there adds no row, and the id it drew is lost. *)
Definition db_query (q : Query) (d : Database)
  : Result (list (gmap string value)) * Database :=
  match q with
  | InsertImage params =>
      let p : gmap string value :=
        list_to_map (zip insert_image_columns (sql_param <$> params)) in
      let id := VNum (images_id_seq d) in
      if negb (integer_key (trips d) (get p "trip_id"))
      then (Throw (DatabaseError "22003"), d)
      else if negb (forallb (λ c, fits_varchar25 (get p c))
                            ["tag1"; "tag2"; "tag3"])
      then (Throw (DatabaseError "22001"), d)
      else
      let r := store_tags p in
      if is_null (get r "file_url")
      then (Throw (DatabaseError "23502"), draw_id d)
      else if negb (references_trip d (get r "trip_id"))
      then (Throw (DatabaseError "23503"), draw_id d)
      else
        (Ok [ {[ "id" := id ]} ],
         mkDatabase (users d) (trips d)
                    (images d ++ [ <["id" := id]> r ])
                    (images_id_seq d + 1))
  | SelectUserByUsername params =>
      let u := default VNull (sql_param <$> params !! 0%nat) in
      (Ok (project select_user_columns <$>
             filter (λ r, get r "username" = u ∧ u ≠ VNull) (users d)), d)
  end.

(** ** The world: store and observable effects *)

Record Annotation : Type := mkAnnotation { description : string }.

Record UploadParams : Type := mkUploadParams {
  Bucket : string;
  Key : string;
  Body : list Byte.byte;
  ContentType : string
}.

Inductive Event : Type :=
  | EvLandmarkDetection (image : list Byte.byte)
                        (r : Result (option (list Annotation)))
  | EvLabelDetection (image : list Byte.byte) (r : Result (list Annotation))
  | EvS3Upload (params : UploadParams) (r : Result string)
  | EvQuery (q : Query) (r : Result (list (gmap string value)))
  | EvConsole (line : string).

Record World : Type := mkWorld {
  db : Database;
  trace : list Event
}.

Definition emit (e : Event) (w : World) : World :=
  mkWorld (db w) (trace w ++ [e]).

(** A computation that may throw and that changes the world. *)
Definition M (A : Type) : Type := World → Result A * World.

#[global] Instance M_ret : MRet M := λ A a w, (Ok a, w).

#[global] Instance M_bind : MBind M := λ A B k m w,
  match m w with
  | (Ok a, w') => k a w'
  | (Throw e, w') => (Throw e, w')
  end.

(** [throw err] *)
Definition throw {A} (e : Error) : M A := λ w, (Throw e, w).

(** [await db.query(...)] *)
Definition query (q : Query) : M (list (gmap string value)) :=
  λ w, let '(r, d) := db_query q (db w) in
       (r, mkWorld d (trace w ++ [EvQuery q r])).

(** ** models/trip.js *)

Module Trip.

(** [Trip.addImage(tripId, image)]: destructure five properties of [image],
    send one [INSERT], return [result.rows[0]]. *)
Definition addImage (tripId : Z) (image : gmap string value)
  : M (option (gmap string value)) :=
  let file_url := get image "file_url" in
  let caption := get image "caption" in
  let tag1 := get image "tag1" in
  let tag2 := get image "tag2" in
  let tag3 := get image "tag3" in
  result ← query (InsertImage [file_url; VNum tripId; caption;
                               tag1; tag2; tag3]);
  let imageId := result !! 0%nat in
  mret imageId.

End Trip.

(** ** routes/trips.js *)

(** The external collaborators of the route: the Vision client, the S3
    client and the clock. *)
Record Services : Type := mkServices {
  vision_landmarkDetection :
    list Byte.byte → Result (option (list Annotation));
  vision_labelDetection : list Byte.byte → Result (list Annotation);
  s3_upload : UploadParams → Result string;
  Date_now : Z
}.

(** [req.file] as multer leaves it, [req.body.caption], [req.params.id]
    (the integer the path segment denotes). *)
Record File : Type := mkFile {
  originalname : option string;
  buffer : option (list Byte.byte);
  mimetype : option string
}.

Record Request : Type := mkRequest {
  file : option File;
  body_caption : option string;
  params_id : Z
}.

(** What the handler does with the request in the end: it sends a response,
    it hands an error to [next], or its promise rejects outside any
    [try]/[catch]. *)
Inductive Outcome : Type :=
  | Responded (status : nat) (body : string)
  | Forwarded (err : Error)
  | Rejected (err : Error).

Definition message (e : Error) : string :=
  match e with
  | NotFoundError m | BadRequestError m | UnauthorizedError m
  | DatabaseError m | ServiceError m => m
  end.

Module Routes.

(** [labelDetection(image)]: the descriptions of the label annotations. *)
Definition labelDetection (env : Services) (image : list Byte.byte)
  : M (list string) :=
  λ w, let r := vision_labelDetection env image in
       let w := emit (EvLabelDetection image r) w in
       match r with
       | Ok labels => (Ok (description <$> labels), w)
       | Throw e => (Throw e, w)
       end.

(** [landmarkDetection(image)]: the landmark annotations as they come. *)
Definition landmarkDetection (env : Services) (image : list Byte.byte)
  : M (option (list Annotation)) :=
  λ w, let r := vision_landmarkDetection env image in
       (r, emit (EvLandmarkDetection image r) w).

(** The block that fills [tagData] from [ldmkArray] and [tags]. *)
Definition tagData (ldmkArray : option (list Annotation)) (tags : list string)
  (w : World) : gmap string value * World :=
  match ldmkArray with
  | None | Some [] =>
      (list_to_map [("tag1", index tags 0); ("tag2", index tags 1);
                    ("tag3", index tags 2); ("tag4", index tags 3);
                    ("tag5", index tags 4)], w)
  | Some (ldmk0 :: _) =>
      let w := emit (EvConsole "Found Landmark") w in
      (list_to_map [("tag1", VStr (description ldmk0)); ("tag2", index tags 0);
                    ("tag3", index tags 1); ("tag4", index tags 2);
                    ("tag5", index tags 3)], w)
  end.

(** [s3.upload(params, callback)]: the callback's [(err, data.Location)]. *)
Definition upload (env : Services) (params : UploadParams) : M string :=
  λ w, let r := s3_upload env params in (r, emit (EvS3Upload params r) w).

(** The [params] of the upload: bucket, key under [folder] with the clock
    reading appended, body and content type. *)
Definition s3_params (env : Services) (f : File) : UploadParams :=
  let folder := "tripimages/" in
  mkUploadParams "traveler-capstone-images"
                 (folder +:+ default "" (originalname f) +:+ "-"
                  +:+ pretty (Date_now env))
                 (default [] (buffer f))
                 (default "" (mimetype f)).

(** [{ file_url: data.Location, caption: req.body.caption, ...tagData }]:
    the properties spread last win. *)
Definition imageData (location : string) (caption : option string)
  (tagData : gmap string value) : gmap string value :=
  tagData ∪ list_to_map [("file_url", VStr location);
                         ("caption", VStr (default "" caption))].

(** [router.post("/:id", upload.single('file'), ...)] *)
Definition post_trip_image (env : Services) (req : Request) (w : World)
  : Outcome * World :=
  match file req with
  | None => (Responded 400 "No file uploaded.", w)
  | Some f =>
    if negb (truthy (body_caption req))
    then (Responded 400 "No caption for file.", w)
    else if negb (truthy (originalname f)) || negb (bool_decide (is_Some (buffer f)))
            || negb (truthy (mimetype f))
    then (Responded 400 "Uploaded file is missing required properties.", w)
    else
    let image := default [] (buffer f) in
    match landmarkDetection env image w with
    | (Throw e, w) => (Rejected e, w)
    | (Ok ldmkArray, w) =>
    match labelDetection env image w with
    | (Throw e, w) => (Rejected e, w)
    | (Ok tags, w) =>
    let '(tagData, w) := tagData ldmkArray tags w in
    let params := s3_params env f in
    match upload env params w with
    | (Throw err, w) =>
        (Responded 500 "Error uploading image to S3",
         emit (EvConsole (message err)) w)
    | (Ok location, w) =>
        let imageData := imageData location (body_caption req) tagData in
        match Trip.addImage (params_id req) imageData w with
        | (Throw err, w) => (Forwarded err, w)
        | (Ok _, w) =>
            (Responded 201 ("File uploaded successfully. URL: " +:+ location), w)
        end
    end
    end
    end
  end.

End Routes.

(** ** models/user.js *)

Module User.

Section Authenticate.

(** [bcrypt.compare(data, hash)] on two strings. *)
Variable bcrypt_compare : string → string → bool.

(** [User.authenticate(username, password)] *)
Definition authenticate (username password : string)
  : M (gmap string value) :=
  result ← query (SelectUserByUsername [VStr username]);
  match result !! 0%nat with
  | Some user =>
      match get user "password" with
      | VStr hash =>
          if bcrypt_compare password hash
          then mret (delete "password" user)
          else throw (UnauthorizedError "Invalid username/password")
      | _ => throw (ServiceError "data and hash arguments required")
      end
  | None => throw (UnauthorizedError "Invalid username/password")
  end.

End Authenticate.

End User.

(** ** Vocabulary of the statements *)

(** The events a run from [w] to [w'] has added to the trace. *)
Definition events (w w' : World) : list Event :=
  drop (length (trace w)) (trace w').

(** The five slots of a tag set, in order. *)
Definition slots (td : gmap string value) : list value :=
  [get td "tag1"; get td "tag2"; get td "tag3"; get td "tag4"; get td "tag5"].

(** Following the specification: the first [n] labels in rank order, the
    slots beyond the available labels absent. *)
Definition first_labels (n : nat) (labels : list string) : list value :=
  (VStr <$> take n labels) ++ replicate (n - length (take n labels)) VUndefined.

Definition trip_exists (d : Database) (tripId : Z) : Prop :=
  Exists (λ t, get t "id" = VNum tripId) (trips d).

(** A field the route's checks treat as missing: absent, or the empty
    string. *)
Definition missing (o : option string) : Prop := o = None ∨ o = Some "".

Definition missing_input (req : Request) : Prop :=
  file req = None ∨ missing (body_caption req) ∨
  ∃ f, file req = Some f ∧
       (missing (originalname f) ∨ buffer f = None ∨ missing (mimetype f)).

(** An image object that the column constraints of [images] accept: a
    [file_url] that is not null and three tags that fit their columns. *)
Definition acceptable (image : gmap string value) : Prop :=
  is_null (get image "file_url") = false ∧
  fits_varchar25 (get image "tag1") = true ∧
  fits_varchar25 (get image "tag2") = true ∧
  fits_varchar25 (get image "tag3") = true.

(** The call that failed with [e] among the events [l]: a classification
    call, the upload, or a statement. *)
Definition failed_with (l : list Event) (e : Error) : Prop :=
  (∃ image, EvLandmarkDetection image (Throw e) ∈ l) ∨
  (∃ image, EvLabelDetection image (Throw e) ∈ l) ∨
  (∃ params, EvS3Upload params (Throw e) ∈ l) ∨
  (∃ q, EvQuery q (Throw e) ∈ l).

(** The world after a run from [w] that left the store [d] and added the
    events [l]. *)
Definition after (w : World) (d : Database) (l : list Event) : World :=
  mkWorld d (trace w ++ l).

(** The request passed the three checks of the route. *)
Definition validated (req : Request) (f : File) (image : list Byte.byte)
  : Prop :=
  file req = Some f ∧ truthy (body_caption req) = true ∧
  truthy (originalname f) = true ∧ buffer f = Some image ∧
  truthy (mimetype f) = true.

(** The statement [Trip.addImage] sends. *)
Definition addImage_query (tripId : Z) (image : gmap string value) : Query :=
  InsertImage [get image "file_url"; VNum tripId; get image "caption";
               get image "tag1"; get image "tag2"; get image "tag3"].

(** The row that [Trip.addImage] asks the store to add. *)
Definition inserted_row (id tripId : Z) (image : gmap string value)
  : gmap string value :=
  list_to_map [("id", VNum id); ("file_url", sql_param (get image "file_url"));
               ("trip_id", VNum tripId);
               ("caption", sql_param (get image "caption"));
               ("tag1", stored25 (sql_param (get image "tag1")));
               ("tag2", stored25 (sql_param (get image "tag2")));
               ("tag3", stored25 (sql_param (get image "tag3")))].

(** The events of a successful classification, and of the tag block. *)
Definition classified (image : list Byte.byte)
  (ldmkArray : option (list Annotation)) (labels : list Annotation)
  : list Event :=
  [EvLandmarkDetection image (Ok ldmkArray);
   EvLabelDetection image (Ok labels)].

Definition tag_events (ldmkArray : option (list Annotation)) : list Event :=
  match ldmkArray with
  | Some (_ :: _) => [EvConsole "Found Landmark"]
  | _ => []
  end.

(** The paths of the handler, one constructor per way a request can end:
    the three validation answers, a failed classification call, a failed
    upload, a failed insert, and the persisted image. *)
Inductive Run (env : Services) (req : Request) (w : World)
  : Outcome → World → Prop :=
  | Run_no_file :
      file req = None →
      Run env req w (Responded 400 "No file uploaded.") w
  | Run_no_caption f :
      file req = Some f →
      truthy (body_caption req) = false →
      Run env req w (Responded 400 "No caption for file.") w
  | Run_bad_file f :
      file req = Some f →
      truthy (body_caption req) = true →
      truthy (originalname f) = false ∨ buffer f = None
        ∨ truthy (mimetype f) = false →
      Run env req w
          (Responded 400 "Uploaded file is missing required properties.") w
  | Run_landmarks_failed f image e :
      validated req f image →
      vision_landmarkDetection env image = Throw e →
      Run env req w (Rejected e)
          (after w (db w) [EvLandmarkDetection image (Throw e)])
  | Run_labels_failed f image ldmkArray e :
      validated req f image →
      vision_landmarkDetection env image = Ok ldmkArray →
      vision_labelDetection env image = Throw e →
      Run env req w (Rejected e)
          (after w (db w) [EvLandmarkDetection image (Ok ldmkArray);
                           EvLabelDetection image (Throw e)])
  | Run_upload_failed f image ldmkArray labels err :
      validated req f image →
      vision_landmarkDetection env image = Ok ldmkArray →
      vision_labelDetection env image = Ok labels →
      s3_upload env (Routes.s3_params env f) = Throw err →
      Run env req w (Responded 500 "Error uploading image to S3")
          (after w (db w)
             (classified image ldmkArray labels ++ tag_events ldmkArray ++
              [EvS3Upload (Routes.s3_params env f) (Throw err);
               EvConsole (message err)]))
  | Run_insert_failed f image ldmkArray labels location err d :
      validated req f image →
      vision_landmarkDetection env image = Ok ldmkArray →
      vision_labelDetection env image = Ok labels →
      s3_upload env (Routes.s3_params env f) = Ok location →
      let q := addImage_query (params_id req)
                 (Routes.imageData location (body_caption req)
                    (Routes.tagData ldmkArray (description <$> labels) w).1) in
      db_query q (db w) = (Throw err, d) →
      Run env req w (Forwarded err)
          (after w d
             (classified image ldmkArray labels ++ tag_events ldmkArray ++
              [EvS3Upload (Routes.s3_params env f) (Ok location);
               EvQuery q (Throw err)]))
  | Run_persisted f image ldmkArray labels location rows d :
      validated req f image →
      vision_landmarkDetection env image = Ok ldmkArray →
      vision_labelDetection env image = Ok labels →
      s3_upload env (Routes.s3_params env f) = Ok location →
      let q := addImage_query (params_id req)
                 (Routes.imageData location (body_caption req)
                    (Routes.tagData ldmkArray (description <$> labels) w).1) in
      db_query q (db w) = (Ok rows, d) →
      Run env req w
          (Responded 201 ("File uploaded successfully. URL: " +:+ location))
          (after w d
             (classified image ldmkArray labels ++ tag_events ldmkArray ++
              [EvS3Upload (Routes.s3_params env f) (Ok location);
               EvQuery q (Ok rows)])).

(** ** The other statements of the models

    [Trip.create] and [User.register] draw ids for [trips] and [users], so
    the store they run on carries the two sequences beside the tables. *)

Record Store : Type := mkStore {
  tables : Database;
  users_id_seq : Z;
  trips_id_seq : Z
}.

(** A computation on the store that may throw. *)
Definition Q (A : Type) : Type := Store → Result A * Store.

#[global] Instance Q_ret : MRet Q := λ A a s, (Ok a, s).

#[global] Instance Q_bind : MBind Q := λ A B k m s,
  match m s with
  | (Ok a, s') => k a s'
  | (Throw e, s') => (Throw e, s')
  end.

Definition raise {A} (e : Error) : Q A := λ s, (Throw e, s).

(** A computation of the route's world, run on the tables of the store. *)
Definition lift {A} (m : M A) : Q A :=
  λ s, let '(r, w) := m (mkWorld (tables s) []) in
       (r, mkStore (db w) (users_id_seq s) (trips_id_seq s)).

(** A column of a stored row ([NULL] when the row has none). *)
Definition col (r : gmap string value) (c : string) : value :=
  default VNull (r !! c).

(** SQL [a = b]: never true of [NULL]. *)
Definition sql_eqb (a b : value) : bool :=
  negb (is_null a) && bool_decide (a = b).

(** A parameter that is a string or missing, a number or missing. *)
Definition str_param (o : option string) : value :=
  match o with
  | Some s => VStr s
  | None => VNull
  end.

Definition num_param (o : option Z) : value :=
  match o with
  | Some n => VNum n
  | None => VNull
  end.

(** [ORDER BY id] *)
Definition id_key (r : gmap string value) : Z :=
  match get r "id" with
  | VNum n => n
  | _ => 0
  end.

Definition id_le (a b : gmap string value) : Prop := id_key a ≤ id_key b.

#[global] Instance id_le_dec : RelDecision id_le.
Proof. intros a b. unfold id_le. apply _. Defined.

Definition order_by_id (rows : list (gmap string value))
  : list (gmap string value) :=
  merge_sort id_le rows.

(** [user_id INTEGER REFERENCES users] *)
Definition references_user (d : Database) (v : value) : bool :=
  is_null v || bool_decide (Exists (λ u, get u "id" = v) (users d)).

(** [INSERT INTO trips (title, user_id) VALUES ($1, $2)
     RETURNING id, title, user_id AS "userId"]: a [user_id] outside
    [INTEGER] is refused before anything is drawn (22003), then [NOT NULL]
    (23502) and the foreign key (23503). *)
Definition insert_trip (title user_id : value) (s : Store)
  : Result (list (gmap string value)) * Store :=
  let d := tables s in
  let drawn := mkStore d (users_id_seq s) (trips_id_seq s + 1) in
  let id := VNum (trips_id_seq s) in
  if negb (integer_key (users d) user_id)
  then (Throw (DatabaseError "22003"), s)
  else if is_null title
  then (Throw (DatabaseError "23502"), drawn)
  else if negb (references_user d user_id)
  then (Throw (DatabaseError "23503"), drawn)
  else
    (Ok [list_to_map [("id", id); ("title", title); ("userId", user_id)]],
     mkStore
       (mkDatabase (users d)
          (trips d ++ [list_to_map [("id", id); ("user_id", user_id);
                                    ("title", title)]])
          (images d) (images_id_seq d))
       (users_id_seq s) (trips_id_seq s + 1)).

(** [SELECT t.id, t.title, t.user_id AS "userId", u.username
     FROM trips AS "t" JOIN users AS "u" ON t.user_id = u.id
     WHERE t.id = $1] *)
Definition select_trip (id : value) (d : Database)
  : list (gmap string value) :=
  t ← trips d;
  u ← users d;
  if sql_eqb (get t "user_id") (get u "id") && sql_eqb (get t "id") id
  then [list_to_map [("id", col t "id"); ("title", col t "title");
                     ("userId", col t "user_id");
                     ("username", col u "username")]]
  else [].

(** [FROM images WHERE trip_id = $1 ORDER BY id] *)
Definition images_of_trip (id : value) (d : Database)
  : list (gmap string value) :=
  order_by_id (filter (λ i, sql_eqb (get i "trip_id") id = true) (images d)).

(** Columns and aliases of the images [SELECT] in [Trip.get]. *)
Definition select_image_columns : list (string * string) :=
  [("id", "id"); ("file_url", "fileUrl"); ("caption", "caption");
   ("tag1", "tag1"); ("tag2", "tag2"); ("tag3", "tag3")].

(** [DELETE FROM trips WHERE id = $1 RETURNING id], with the cascade of
    [images.trip_id]: the images of a deleted trip go with it. *)
Definition delete_trip (id : value) (d : Database)
  : list (gmap string value) * Database :=
  let gone := filter (λ t, sql_eqb (get t "id") id = true) (trips d) in
  ((λ t, {[ "id" := col t "id" ]}) <$> gone,
   mkDatabase (users d)
     (filter (λ t, sql_eqb (get t "id") id = false) (trips d))
     (filter (λ i, ¬ Exists (λ t, sql_eqb (get i "trip_id") (get t "id") = true)
                          gone) (images d))
     (images_id_seq d)).

(** [SELECT username FROM users WHERE username = $1] *)
Definition select_username (username : value) (d : Database)
  : list (gmap string value) :=
  project [("username", "username")] <$>
    filter (λ u, sql_eqb (get u "username") username = true) (users d).

(** Columns and aliases returned by the [INSERT] of [User.register]. *)
Definition returning_user_columns : list (string * string) :=
  [("username", "username"); ("first_name", "firstName");
   ("last_name", "lastName"); ("profile_image", "profImage");
   ("about", "about")].

(** [INSERT INTO users (username, password, first_name, last_name,
     profile_image, about) VALUES ($1, ..., $6) RETURNING ...]: a value
    that one of the three [VARCHAR(25)] columns cannot hold is refused
    before anything is drawn (22001); then [NOT NULL] (23502) and
    [UNIQUE (username)] (23505), on the values as stored. *)
Definition insert_user
  (username password first_name last_name profile_image about : value)
  (s : Store) : Result (list (gmap string value)) * Store :=
  let d := tables s in
  let drawn := mkStore d (users_id_seq s + 1) (trips_id_seq s) in
  if negb (forallb fits_varchar25 [username; first_name; last_name])
  then (Throw (DatabaseError "22001"), s)
  else
  let row : gmap string value :=
    list_to_map [("id", VNum (users_id_seq s));
                 ("username", stored25 username);
                 ("password", password);
                 ("first_name", stored25 first_name);
                 ("last_name", stored25 last_name);
                 ("profile_image", profile_image);
                 ("about", about)] in
  if is_null username || is_null password
  then (Throw (DatabaseError "23502"), drawn)
  else if bool_decide (Exists (λ u, get u "username" = stored25 username)
                              (users d))
  then (Throw (DatabaseError "23505"), drawn)
  else
    (Ok [project returning_user_columns row],
     mkStore (mkDatabase (users d ++ [row]) (trips d) (images d)
                         (images_id_seq d))
             (users_id_seq s + 1) (trips_id_seq s)).

(** Columns and aliases of the [SELECT] in [User.get]. *)
Definition get_user_columns : list (string * string) :=
  [("id", "id"); ("username", "username"); ("first_name", "firstName");
   ("last_name", "lastName"); ("profile_image", "profileImage");
   ("about", "about")].

(** [SELECT id, username, ... FROM users WHERE username = $1] *)
Definition select_user (username : value) (d : Database)
  : list (gmap string value) :=
  project get_user_columns <$>
    filter (λ u, sql_eqb (get u "username") username = true) (users d).

(** [DELETE FROM users WHERE username = $1 RETURNING username], with the
    cascades of [trips.user_id] and, through the trips, of
    [images.trip_id]. *)
Definition delete_user (username : value) (d : Database)
  : list (gmap string value) * Database :=
  let gone := filter (λ u, sql_eqb (get u "username") username = true)
                     (users d) in
  let owned (t : gmap string value) : Prop :=
    Exists (λ u, sql_eqb (get t "user_id") (get u "id") = true) gone in
  let gone_trips := filter owned (trips d) in
  (project [("username", "username")] <$> gone,
   mkDatabase
     (filter (λ u, sql_eqb (get u "username") username = false) (users d))
     (filter (λ t, ¬ owned t) (trips d))
     (filter (λ i, ¬ Exists (λ t, sql_eqb (get i "trip_id") (get t "id") = true)
                          gone_trips) (images d))
     (images_id_seq d)).

(** The last id that the sequence of [trips] gave. *)
Definition last_trip_id (s : Store) : Z := trips_id_seq s - 1.

(** A parameter compared with [trips.id]: an [INTEGER]. The model does not
    stop its sequences where [INTEGER] ends, so the range reaches the last
    id that the sequence gave. *)
Definition integer_id (last n : Z) : bool :=
  (Z.min (-2147483648) last <=? n) && (n <=? Z.max 2147483647 last).

(** A statement that reads the tables, one that changes them. *)
Definition reading (f : Database → list (gmap string value))
  : Q (list (gmap string value)) :=
  λ s, (Ok (f (tables s)), s).

Definition writing (f : Database → list (gmap string value) * Database)
  : Q (list (gmap string value)) :=
  λ s, let '(rows, d) := f (tables s) in
       (Ok rows, mkStore d (users_id_seq s) (trips_id_seq s)).

(** ** models/trip.js, the other methods *)

Module Trips.

(** [Trip.create({ title, userId })] *)
Definition create (title : option string) (userId : option Z)
  : Q (option (gmap string value)) :=
  result ← insert_trip (str_param title) (num_param userId);
  let trip := result !! 0%nat in
  mret trip.

(** [Trip.getTripImages(tripId)]: [SELECT *], the rows as stored. The
    statement is modelled for every [tripId]; the database refuses one that
    is not an [INTEGER] (22003), which no id of a row is. *)
Definition getTripImages (tripId : Z) : Q (list (gmap string value)) :=
  result ← reading (images_of_trip (VNum tripId));
  mret result.

(** [Trip.remove(id)]: an id outside [INTEGER] is refused by the
    statement (22003). *)
Definition remove (id : Z) : Q unit :=
  result ← (λ s, if integer_id (last_trip_id s) id
                 then writing (delete_trip (VNum id)) s
                 else raise (DatabaseError "22003") s);
  match result !! 0%nat with
  | Some trip => mret ()
  | None => raise (NotFoundError ("No trip: " +:+ pretty id))
  end.

(** [Trip.get(id)]: the trip row and the array put under [trip.images]; an
    id outside [INTEGER] is refused by the first statement (22003). *)
Definition get (id : Z)
  : Q (gmap string value * list (gmap string value)) :=
  tripRes ← (λ s, if integer_id (last_trip_id s) id
                  then reading (select_trip (VNum id)) s
                  else raise (DatabaseError "22003") s);
  match tripRes !! 0%nat with
  | None => raise (NotFoundError ("No trip: " +:+ pretty id))
  | Some trip =>
      imagesRes ← reading (λ d, project select_image_columns <$>
                                  images_of_trip (VNum id) d);
      mret (trip, imagesRes)
  end.

End Trips.

(** ** models/user.js, the other methods *)

(** What [User.register] is given. *)
Record UserData : Type := mkUserData {
  username : option string;
  password : option string;
  firstName : option string;
  lastName : option string;
  profImage : option string;
  about : option string
}.

Module Users.

Section Register.

(** [bcrypt.hash(data, BCRYPT_WORK_FACTOR)] on a string. *)
Variable bcrypt_hash : string → string.

(** [User.register({ username, password, firstName, lastName, profImage,
    about })] *)
Definition register (data : UserData) : Q (option (gmap string value)) :=
  duplicateCheck ← reading (select_username (str_param (username data)));
  match duplicateCheck !! 0%nat with
  | Some _ =>
      raise (BadRequestError ("Duplicate username: "
                              +:+ default "undefined" (username data)))
  | None =>
      match password data with
      | None => raise (ServiceError "data and salt arguments required")
      | Some password =>
          let hashedPassword := bcrypt_hash password in
          result ← insert_user (str_param (username data))
                               (VStr hashedPassword)
                               (str_param (firstName data))
                               (str_param (lastName data))
                               (str_param (profImage data))
                               (str_param (about data));
          let user := result !! 0%nat in
          mret user
      end
  end.

End Register.

(** [User.remove(username)] *)
Definition remove (username : string) : Q unit :=
  result ← writing (delete_user (VStr username));
  match result !! 0%nat with
  | Some user => mret ()
  | None => raise (NotFoundError ("No user: " +:+ username))
  end.

(** [User.get(username)] *)
Definition get (username : string) : Q (gmap string value) :=
  userRes ← reading (select_user (VStr username));
  match userRes !! 0%nat with
  | Some user => mret user
  | None => raise (NotFoundError ("No user: " +:+ username))
  end.

End Users.

(** ** Vocabulary for the other methods *)

Definition user_exists (d : Database) (userId : Z) : Prop :=
  Exists (λ u, get u "id" = VNum userId) (users d).

Definition username_taken (d : Database) (name : string) : Prop :=
  Exists (λ u, get u "username" = VStr name) (users d).

(** A trip that [Trip.get] can see: its [user_id] is the id of a user. *)
Definition trip_with_owner (d : Database) (id : Z) : Prop :=
  ∃ t u, t ∈ trips d ∧ u ∈ users d ∧ get t "id" = VNum id ∧
         get t "user_id" = get u "id" ∧ is_null (get u "id") = false.

(** The row has an id that its sequence has already passed. *)
Definition id_below (seq : Z) (r : gmap string value) : Prop :=
  ∃ n, get r "id" = VNum n ∧ n < seq.

(** What the constraints of the schema keep true of a store: the two
    foreign keys hold, and every key was drawn from its sequence. *)
Definition Integrity (s : Store) : Prop :=
  Forall (λ i, references_trip (tables s) (get i "trip_id") = true)
         (images (tables s)) ∧
  Forall (λ t, references_user (tables s) (get t "user_id") = true)
         (trips (tables s)) ∧
  Forall (id_below (images_id_seq (tables s))) (images (tables s)) ∧
  Forall (id_below (trips_id_seq s)) (trips (tables s)) ∧
  Forall (id_below (users_id_seq s)) (users (tables s)).

(** The three columns of [users] that are [VARCHAR(25)]. *)
Definition fits_users (data : UserData) : Prop :=
  fits_varchar25 (str_param (username data)) = true ∧
  fits_varchar25 (str_param (firstName data)) = true ∧
  fits_varchar25 (str_param (lastName data)) = true.

(** The username that [users] stores for an accepted one: its first 25
    characters. *)
Definition stored_name (name : string) : string := (split_chars 25 name).1.

(** The row [User.register] stores and the object it returns, with the
    three [VARCHAR(25)] values as their columns store them. *)
Definition user_row (id : Z) (hash : string) (data : UserData)
  : gmap string value :=
  list_to_map [("id", VNum id);
               ("username", stored25 (str_param (username data)));
               ("password", VStr hash);
               ("first_name", stored25 (str_param (firstName data)));
               ("last_name", stored25 (str_param (lastName data)));
               ("profile_image", str_param (profImage data));
               ("about", str_param (about data))].

Definition registered_user (data : UserData) : gmap string value :=
  list_to_map [("username", stored25 (str_param (username data)));
               ("firstName", stored25 (str_param (firstName data)));
               ("lastName", stored25 (str_param (lastName data)));
               ("profImage", str_param (profImage data));
               ("about", str_param (about data))].

(** The row the join gives for a trip and its owner. *)
Definition joined (t u : gmap string value) : gmap string value :=
  list_to_map [("id", col t "id"); ("title", col t "title");
               ("userId", col t "user_id"); ("username", col u "username")].



(** The store after [User.register] has added a user. *)
Definition with_user (hash : string) (data : UserData) (s : Store) : Store :=
  mkStore
    (mkDatabase
       (users (tables s) ++ [user_row (users_id_seq s) hash data])
       (trips (tables s)) (images (tables s)) (images_id_seq (tables s)))
    (users_id_seq s + 1) (trips_id_seq s).

(** The trips that the cascade of the deleted users takes. *)
Definition owned_by (name : string) (d : Database) (t : gmap string value)
  : Prop :=
  ∃ u, u ∈ users d ∧ get u "username" = VStr name ∧
       get t "user_id" = get u "id" ∧ is_null (get u "id") = false.

(** ** Sample requests, services and stores *)

Definition s3_location (p : UploadParams) : string :=
  "https://traveler-capstone-images.s3.us-east-2.amazonaws.com/" +:+ Key p.

(** The classifier finds the Eiffel Tower and five labels. *)
Definition eiffel_env : Services :=
  mkServices
    (λ _, Ok (Some [mkAnnotation "Eiffel Tower"]))
    (λ _, Ok (mkAnnotation <$>
                ["tower"; "sky"; "architecture"; "landmark"; "europe"]))
    (λ p, Ok (s3_location p))
    1700000000000.


(** The object store refuses the upload. *)
Definition s3_down : Error := ServiceError "NetworkingError".

Definition s3_down_env : Services :=
  mkServices
    (λ _, Ok (Some [mkAnnotation "Eiffel Tower"]))
    (λ _, Ok (mkAnnotation <$>
                ["tower"; "sky"; "architecture"; "landmark"; "europe"]))
    (λ _, Throw s3_down)
    1700000000000.

Definition photo : File :=
  mkFile (Some "paris.jpg") (Some [Byte.xff; Byte.xd8]) (Some "image/jpeg").

Definition paris_request : Request :=
  mkRequest (Some photo) (Some "At the tower") 7.

Definition no_caption_request : Request := mkRequest (Some photo) None 7.

(** Trip 99 is not in the sample store. *)
Definition lost_trip_request : Request :=
  mkRequest (Some photo) (Some "At the tower") 99.

Definition paris_image : gmap string value :=
  list_to_map [("file_url", VStr "https://example.org/paris.jpg");
               ("caption", VStr "At the tower"); ("tag1", VStr "Eiffel Tower");
               ("tag2", VStr "tower"); ("tag3", VStr "sky");
               ("tag4", VStr "architecture"); ("tag5", VStr "landmark")].

Definition alice : gmap string value :=
  list_to_map [("id", VNum 1); ("username", VStr "alice");
               ("password", VStr "$2b$12$hash"); ("first_name", VStr "Alice");
               ("last_name", VNull); ("profile_image", VNull);
               ("about", VNull)].

Definition paris_trip : gmap string value :=
  list_to_map [("id", VNum 7); ("user_id", VNum 1); ("title", VStr "Paris")].

Definition sample_db : Database := mkDatabase [alice] [paris_trip] [] 1.

Definition sample_world : World := mkWorld sample_db [].

(** A stand-in for [bcrypt.compare] on the sample store. *)
Definition sample_compare (data hash : string) : bool :=
  String.eqb data "secret" && String.eqb hash "$2b$12$hash".

(** A second user with a trip, and one image on each trip. *)
Definition bob : gmap string value :=
  list_to_map [("id", VNum 2); ("username", VStr "bob");
               ("password", VStr "$2b$12$other"); ("first_name", VNull);
               ("last_name", VNull); ("profile_image", VNull);
               ("about", VNull)].

Definition rome_trip : gmap string value :=
  list_to_map [("id", VNum 8); ("user_id", VNum 2); ("title", VStr "Rome")].

Definition paris_row : gmap string value := inserted_row 1 7 paris_image.

Definition rome_row : gmap string value :=
  list_to_map [("id", VNum 2);
               ("file_url", VStr "https://example.org/rome.jpg");
               ("trip_id", VNum 8); ("caption", VStr "Forum");
               ("tag1", VNull); ("tag2", VNull); ("tag3", VNull)].

Definition busy_store : Store :=
  mkStore (mkDatabase [alice; bob] [paris_trip; rome_trip]
                      [paris_row; rome_row] 3) 3 9.

Definition sample_store : Store := mkStore sample_db 2 8.

Definition carol : UserData :=
  mkUserData (Some "carol") (Some "secret") (Some "Carol") None None None.

(** A username of 25 letters and a space. *)
Definition dave : UserData :=
  mkUserData (Some "abcdefghijklmnopqrstuvwxy ") (Some "pw") None None None
             None.


Definition long_image : gmap string value :=
  <["tag1" := VStr "abcdefghijklmnopqrstuvwxyz"]> paris_image.

(** Stand-ins for [bcrypt.hash] and [bcrypt.compare]. *)
Definition sample_hash (data : string) : string := "$2b$12$" +:+ data.

Definition sample_verify (data hash : string) : bool :=
  String.eqb hash (sample_hash data).

(** Every error of the pipeline is handed to [next], that is, to the
    top-level error handler of the application. *)
Definition reaches_error_handler (env : Services) (req : Request) (w : World)
  : Prop :=
  ∀ e, failed_with (events w (Routes.post_trip_image env req w).2) e →
       (Routes.post_trip_image env req w).1 = Forwarded e.

(** * Properties *)

(** ** Shared lemmas *)

Lemma events_after w d l : events w (after w d l) = l.
Proof. unfold events, after; simpl. by rewrite drop_app_length. Qed.

Lemma events_same w : events w w = [].
Proof. unfold events. by rewrite drop_all. Qed.

Lemma after_nil w : after w (db w) [] = w.
Proof. unfold after. rewrite app_nil_r. by destruct w. Qed.

Lemma after_after w d l d' l' :
  after (after w d l) d' l' = after w d' (l ++ l').
Proof. unfold after; simpl. by rewrite app_assoc. Qed.

Lemma emit_after e w : emit e w = after w (db w) [e].
Proof. reflexivity. Qed.

(** The tag block reads nothing of the world and adds console lines only. *)
Lemma tagData_run ldmkArray tags w w0 :
  Routes.tagData ldmkArray tags w =
    ((Routes.tagData ldmkArray tags w0).1,
     after w (db w) (tag_events ldmkArray)).
Proof.
  destruct ldmkArray as [[|ldmk0 rest]|]; simpl;
    rewrite ?after_nil; reflexivity.
Qed.

(** [Trip.addImage] is its one statement. *)
Lemma addImage_run tripId image w :
  Trip.addImage tripId image w =
    let q := addImage_query tripId image in
    (match (db_query q (db w)).1 with
     | Ok rows => Ok (rows !! 0%nat)
     | Throw e => Throw e
     end,
     after w (db_query q (db w)).2 [EvQuery q (db_query q (db w)).1]).
Proof.
  unfold Trip.addImage, addImage_query, mbind, M_bind, query, after.
  cbv zeta. destruct (db_query _ (db w)) as [[rows|e] d]; reflexivity.
Qed.


(** Every run of the handler follows one of the paths. *)
Lemma post_trip_image_Run env req w :
  Run env req w (Routes.post_trip_image env req w).1
                (Routes.post_trip_image env req w).2.
Proof.
  unfold Routes.post_trip_image.
  destruct (file req) as [f|] eqn:Hfile; [|by constructor].
  destruct (truthy (body_caption req)) eqn:Hcap; simpl;
    [|by econstructor].
  destruct (truthy (originalname f)) eqn:Hname; simpl;
    [|econstructor 3; eauto].
  destruct (buffer f) as [image|] eqn:Hbuf; simpl;
    [|econstructor 3; eauto].
  destruct (truthy (mimetype f)) eqn:Hmime; simpl;
    [|econstructor 3; eauto].
  assert (validated req f image) as Hv by done.
  unfold Routes.landmarkDetection, Routes.labelDetection, Routes.upload.
  cbv zeta.
  destruct (vision_landmarkDetection env image) as [ldmkArray|e] eqn:Hlm;
    [|by eapply Run_landmarks_failed].
  destruct (vision_labelDetection env image) as [labels|e] eqn:Hlb;
    [|simpl; rewrite !emit_after; simpl db; rewrite after_after;
      by eapply Run_labels_failed].
  rewrite (tagData_run _ _ _ w), !emit_after. simpl db.
  rewrite !after_after.
  destruct (s3_upload env (Routes.s3_params env f)) as [location|err] eqn:Hs3.
  - rewrite addImage_run. cbv zeta. rewrite !after_after. simpl db.
    destruct (db_query _ (db w)) as [[rows|err] d] eqn:Hq; simpl.
    + rewrite <- !app_assoc. by eapply Run_persisted.
    + rewrite <- !app_assoc. by eapply Run_insert_failed.
  - rewrite emit_after. simpl db. rewrite after_after, <- !app_assoc.
    by eapply Run_upload_failed.
Qed.

Lemma elem_of_tag_events x ldmkArray :
  x ∈ tag_events ldmkArray → x = EvConsole "Found Landmark".
Proof.
  destruct ldmkArray as [[|??]|]; simpl; set_solver.
Qed.

(** Case analysis on the membership [H] of an event in the events of a
    path; the impossible cases are closed. *)
Ltac elem_cases H :=
  unfold classified in H;
  repeat first
    [ apply elem_of_cons in H as [H | H]
    | apply elem_of_app in H as [H | H]
    | apply elem_of_tag_events in H
    | apply elem_of_nil in H; destruct H ];
  try discriminate H.

(** Case analysis on the path taken by [post_trip_image env req w]. *)
Ltac handler_paths env req w :=
  let HR := fresh "HR" in
  pose proof (post_trip_image_Run env req w) as HR;
  destruct (Routes.post_trip_image env req w) as [? ?];
  cbn [fst snd] in *; inversion HR; subst.

(** The columns of the row that the [INSERT] of [Trip.addImage] builds. *)
Lemma insert_row_get (a b c d e f : value) :
  let r : gmap string value :=
    list_to_map (zip insert_image_columns (sql_param <$> [a; b; c; d; e; f])) in
  get r "file_url" = sql_param a ∧ get r "trip_id" = sql_param b ∧
  get r "caption" = sql_param c ∧ get r "tag1" = sql_param d ∧
  get r "tag2" = sql_param e ∧ get r "tag3" = sql_param f ∧
  r !! "tag4" = None ∧ r !! "tag5" = None.
Proof. repeat split; reflexivity. Qed.

(** An insert that fails adds no row, and only ever fails with a driver
    error. *)
Lemma insert_image_throw params d e d' :
  db_query (InsertImage params) d = (Throw e, d') →
  (d' = d ∨ d' = draw_id d) ∧ ∃ sqlstate, e = DatabaseError sqlstate.
Proof.
  unfold db_query. intros H.
  repeat (match type of H with
          | context [if ?b then _ else _] => destruct b
          end); simplify_eq; eauto.
Qed.

Lemma references_trip_false d tripId :
  ¬ trip_exists d tripId → references_trip d (VNum tripId) = false.
Proof.
  intros H. unfold references_trip; simpl. by apply bool_decide_eq_false_2.
Qed.

Lemma references_trip_true d tripId :
  trip_exists d tripId → references_trip d (VNum tripId) = true.
Proof.
  intros H. unfold references_trip; simpl. by apply bool_decide_eq_true_2.
Qed.

(** ** Tag resolution *)

(** C2: when a landmark was found, slot 1 of the tag set the handler computes
    is the description of the first landmark, and slots 2 to 5 are the first
    four labels in rank order, the slots beyond the available labels being
    absent. *)
Theorem tagData_landmark_then_labels ldmk0 rest tags w :
  slots (Routes.tagData (Some (ldmk0 :: rest)) tags w).1
    = VStr (description ldmk0) :: first_labels 4 tags.
Proof.
  destruct tags as [|a [|b [|c [|d tags]]]]; reflexivity.
Qed.

(** C6: when no landmark was found, the tag set the handler computes is the
    first five labels in rank order, the slots beyond the available labels
    being absent; six labels a..f give a, b, c, d, e. *)
Theorem tagData_labels_only ldmkArray tags w :
  ldmkArray = None ∨ ldmkArray = Some [] →
  slots (Routes.tagData ldmkArray tags w).1 = first_labels 5 tags ∧
  ∀ a b c d e f, tags = [a; b; c; d; e; f] →
    slots (Routes.tagData ldmkArray tags w).1 = VStr <$> [a; b; c; d; e].
Proof.
  intros Hnone.
  assert (slots (Routes.tagData ldmkArray tags w).1 = first_labels 5 tags)
    as Hslots.
  { destruct Hnone as [-> | ->];
      destruct tags as [|a [|b [|c [|d [|e tags]]]]]; reflexivity. }
  split; [done|]. intros a b c d e f ->. by rewrite Hslots.
Qed.

Lemma tagData_labels_only_witness :
  (Some ([] : list Annotation) = None ∨ Some [] = Some ([] : list Annotation)) ∧
  slots (Routes.tagData (Some []) ["a"; "b"; "c"; "d"; "e"; "f"]
                        sample_world).1
    = [VStr "a"; VStr "b"; VStr "c"; VStr "d"; VStr "e"].
Proof.
  split; [by right|].
  refine (proj2 (tagData_labels_only (Some [])
                   ["a"; "b"; "c"; "d"; "e"; "f"] sample_world (or_intror eq_refl))
                "a" "b" "c" "d" "e" "f" eq_refl).
Defined.

(** C8, as stated, fails: the tag block is not free of side effects. With
    a landmark it writes the line "Found Landmark" to the console, so the
    world after it is not the world before it. *)
Lemma tagData_writes_console :
  (Routes.tagData (Some [mkAnnotation "Eiffel Tower"]) ["tower"; "sky"]
     sample_world).2 ≠ sample_world ∧
  events sample_world
    (Routes.tagData (Some [mkAnnotation "Eiffel Tower"]) ["tower"; "sky"]
       sample_world).2
    = [EvConsole "Found Landmark"].
Proof. split; [discriminate | reflexivity]. Qed.

(** C8, amended: the tag set is a function of the landmark and label results
    alone, the same from any two worlds; the block leaves the store as it
    was and calls no service; its one effect is the console line "Found
    Landmark", written exactly when there is a landmark. *)
Theorem tagData_deterministic ldmkArray tags w1 w2 :
  (Routes.tagData ldmkArray tags w1).1 = (Routes.tagData ldmkArray tags w2).1 ∧
  db (Routes.tagData ldmkArray tags w1).2 = db w1 ∧
  events w1 (Routes.tagData ldmkArray tags w1).2
    = match ldmkArray with
      | Some (_ :: _) => [EvConsole "Found Landmark"]
      | _ => []
      end ∧
  ((ldmkArray = None ∨ ldmkArray = Some []) →
   (Routes.tagData ldmkArray tags w1).2 = w1).
Proof.
  rewrite (tagData_run ldmkArray tags w1 w2). simpl.
  split; [done|]. split; [done|]. rewrite events_after.
  split; [done|]. intros [-> | ->]; simpl; by rewrite after_nil.
Qed.

Lemma tagData_deterministic_witness :
  (Routes.tagData None ["tower"; "sky"] sample_world).2 = sample_world.
Proof.
  exact (proj2 (proj2 (proj2 (tagData_deterministic None ["tower"; "sky"]
                                sample_world sample_world)))
           (or_introl eq_refl)).
Defined.

(** ** The store *)

Lemma fits_varchar25_param v : fits_varchar25 (sql_param v) = fits_varchar25 v.
Proof. by destruct v. Qed.

Lemma is_null_param v : is_null (sql_param v) = is_null v.
Proof. by destruct v. Qed.

(** The insert of [Trip.addImage], check by check. *)
Lemma insert_image_run d tripId image :
  db_query (addImage_query tripId image) d =
    if negb (int4 tripId || bool_decide (trip_exists d tripId))
    then (Throw (DatabaseError "22003"), d)
    else if negb (fits_varchar25 (get image "tag1")
                  && fits_varchar25 (get image "tag2")
                  && fits_varchar25 (get image "tag3"))
    then (Throw (DatabaseError "22001"), d)
    else if is_null (get image "file_url")
    then (Throw (DatabaseError "23502"), draw_id d)
    else if negb (bool_decide (trip_exists d tripId))
    then (Throw (DatabaseError "23503"), draw_id d)
    else
      (Ok [ {[ "id" := VNum (images_id_seq d) ]} ],
       mkDatabase (users d) (trips d)
         (images d ++ [inserted_row (images_id_seq d) tripId image])
         (images_id_seq d + 1)).
Proof.
  unfold db_query, addImage_query. cbv zeta.
  change (get (list_to_map
                 (zip insert_image_columns
                    (sql_param <$>
                     [get image "file_url"; VNum tripId; get image "caption";
                      get image "tag1"; get image "tag2"; get image "tag3"])))
              "trip_id") with (VNum tripId).
  change (integer_key (trips d) (VNum tripId))
    with (int4 tripId || bool_decide (trip_exists d tripId)).
  destruct (int4 tripId || bool_decide (trip_exists d tripId)); [|done].
  cbn [negb forallb].
  change (get (list_to_map
                 (zip insert_image_columns
                    (sql_param <$>
                     [get image "file_url"; VNum tripId; get image "caption";
                      get image "tag1"; get image "tag2"; get image "tag3"])))
              "tag1") with (sql_param (get image "tag1")).
  change (get (list_to_map
                 (zip insert_image_columns
                    (sql_param <$>
                     [get image "file_url"; VNum tripId; get image "caption";
                      get image "tag1"; get image "tag2"; get image "tag3"])))
              "tag2") with (sql_param (get image "tag2")).
  change (get (list_to_map
                 (zip insert_image_columns
                    (sql_param <$>
                     [get image "file_url"; VNum tripId; get image "caption";
                      get image "tag1"; get image "tag2"; get image "tag3"])))
              "tag3") with (sql_param (get image "tag3")).
  rewrite !fits_varchar25_param.
  destruct (fits_varchar25 (get image "tag1")); [|done].
  destruct (fits_varchar25 (get image "tag2")); [|done].
  destruct (fits_varchar25 (get image "tag3")); [|done].
  cbn [andb negb].
  change (get (store_tags _) "file_url")
    with (sql_param (get image "file_url")).
  change (get (store_tags _) "trip_id") with (VNum tripId).
  rewrite is_null_param.
  destruct (is_null (get image "file_url")); [done|].
  change (references_trip d (VNum tripId))
    with (bool_decide (trip_exists d tripId)).
  destruct (bool_decide (trip_exists d tripId)); reflexivity.
Qed.

Lemma insert_image_ok d tripId image :
  acceptable image → trip_exists d tripId →
  db_query (addImage_query tripId image) d =
    (Ok [ {[ "id" := VNum (images_id_seq d) ]} ],
     mkDatabase (users d) (trips d)
       (images d ++ [inserted_row (images_id_seq d) tripId image])
       (images_id_seq d + 1)).
Proof.
  intros (Hurl & H1 & H2 & H3) Htrip. rewrite insert_image_run.
  rewrite (bool_decide_eq_true_2 _ Htrip), orb_true_r, H1, H2, H3, Hurl.
  reflexivity.
Qed.



(** An insert that succeeded had an acceptable row and an existing trip. *)
Lemma insert_image_Ok_inv d tripId image rows d' :
  db_query (addImage_query tripId image) d = (Ok rows, d') →
  acceptable image ∧ trip_exists d tripId.
Proof.
  rewrite insert_image_run. unfold acceptable.
  destruct (int4 tripId || bool_decide (trip_exists d tripId)); [|done].
  destruct (fits_varchar25 (get image "tag1")); [|done].
  destruct (fits_varchar25 (get image "tag2")); [|done].
  destruct (fits_varchar25 (get image "tag3")); [|done].
  destruct (is_null (get image "file_url")); [done|].
  destruct (bool_decide (trip_exists d tripId)) eqn:Hex; [|done].
  intros _. apply bool_decide_eq_true in Hex. done.
Qed.

(** ** The upload route *)

Lemma validated_not_missing req f image :
  validated req f image → ¬ missing_input req.
Proof.
  intros (Hf & Hc & Hn & Hb & Hm) [Hno | [Hcap | (f' & Hf' & Hprop)]].
  - congruence.
  - destruct Hcap as [E | E]; rewrite E in Hc; done.
  - assert (f' = f) as -> by congruence.
    destruct Hprop as [[E | E] | [E | [E | E]]];
      first [rewrite E in Hn | rewrite E in Hb | rewrite E in Hm]; done.
Qed.

(** C4: when the file, the caption or one of the file's name, buffer and
    MIME type is missing, the route answers 400 and returns the world it was
    given: no classifier call, no upload, no statement, the store as it
    was. *)
Theorem missing_input_rejected env req w :
  missing_input req →
  ∃ body, Routes.post_trip_image env req w = (Responded 400 body, w) ∧
          events w (Routes.post_trip_image env req w).2 = [].
Proof.
  intros Hmiss. handler_paths env req w;
    try (exfalso; eapply validated_not_missing; eassumption);
    eexists; (split; [reflexivity | apply events_same]).
Qed.

Lemma missing_input_rejected_witness :
  missing_input no_caption_request ∧
  ∃ body,
    Routes.post_trip_image eiffel_env no_caption_request sample_world
      = (Responded 400 body, sample_world) ∧
    events sample_world
      (Routes.post_trip_image eiffel_env no_caption_request sample_world).2
      = [].
Proof.
  assert (missing_input no_caption_request) as H
    by (right; left; left; reflexivity).
  split; [exact H|].
  exact (missing_input_rejected eiffel_env no_caption_request sample_world H).
Defined.

(** C5: when the upload to the object store fails, the route answers 500,
    no statement is sent to the store ([Trip.addImage] is not called) and
    the [images] table is as it was. *)
Theorem upload_failure_writes_no_row env req w params e :
  EvS3Upload params (Throw e)
    ∈ events w (Routes.post_trip_image env req w).2 →
  (Routes.post_trip_image env req w).1
    = Responded 500 "Error uploading image to S3" ∧
  images (db (Routes.post_trip_image env req w).2) = images (db w) ∧
  ∀ q r, EvQuery q r ∉ events w (Routes.post_trip_image env req w).2.
Proof.
  intros Hin. handler_paths env req w;
    rewrite ?events_same, ?events_after in *; elem_cases Hin.
  split; [done|]. split; [done|]. intros q r Hq. elem_cases Hq.
Qed.

Lemma upload_failure_writes_no_row_witness :
  EvS3Upload (Routes.s3_params s3_down_env photo) (Throw s3_down)
    ∈ events sample_world
        (Routes.post_trip_image s3_down_env paris_request sample_world).2 ∧
  (Routes.post_trip_image s3_down_env paris_request sample_world).1
    = Responded 500 "Error uploading image to S3" ∧
  images (db (Routes.post_trip_image s3_down_env paris_request sample_world).2)
    = [].
Proof.
  assert (EvS3Upload (Routes.s3_params s3_down_env photo) (Throw s3_down)
            ∈ events sample_world
                (Routes.post_trip_image s3_down_env paris_request
                   sample_world).2) as H
    by (vm_compute; do 3 right; left).
  split; [exact H|].
  destruct (upload_failure_writes_no_row s3_down_env paris_request
              sample_world _ _ H) as (Ho & Hi & _).
  split; [exact Ho | exact Hi].
Defined.




(** C1: the request of the scenario (one landmark, Eiffel Tower, and the
    labels tower, sky, architecture, landmark, europe; upload and insert
    succeed) is answered 201, and the handler's tag set has "architecture"
    in slot 4 and "landmark" in slot 5; the row written to [images] has
    tag1 to tag3 as expected and no tag4 and no tag5 at all. *)
Theorem eiffel_row_has_three_tags :
  (Routes.post_trip_image eiffel_env paris_request sample_world).1
    = Responded 201
        ("File uploaded successfully. URL: "
         +:+ s3_location (Routes.s3_params eiffel_env photo)) ∧
  slots (Routes.tagData (Some [mkAnnotation "Eiffel Tower"])
           ["tower"; "sky"; "architecture"; "landmark"; "europe"]
           sample_world).1
    = [VStr "Eiffel Tower"; VStr "tower"; VStr "sky"; VStr "architecture";
       VStr "landmark"] ∧
  ∃ row,
    images (db (Routes.post_trip_image eiffel_env paris_request
                  sample_world).2) = [row] ∧
    get row "tag1" = VStr "Eiffel Tower" ∧ get row "tag2" = VStr "tower" ∧
    get row "tag3" = VStr "sky" ∧
    row !! "tag4" = None ∧ row !! "tag5" = None ∧
    get row "tag4" ≠ VStr "architecture".
Proof.
  split; [by vm_compute|]. split; [by vm_compute|].
  eexists. split; [by vm_compute|]. by vm_compute.
Qed.

(** Whatever image object it is given, the row [Trip.addImage] asks for has
    the columns of its [INSERT] and no other: in particular no [tag4] and no
    [tag5]. *)
Lemma inserted_row_columns id tripId image :
  dom (inserted_row id tripId image)
    = list_to_set ("id" :: insert_image_columns).
Proof.
  unfold inserted_row. rewrite dom_list_to_map_L. reflexivity.
Qed.

(** C3, as stated, fails: when the object store refuses the upload, the
    error is not handed to the error handler. *)
Lemma upload_error_not_forwarded :
  ¬ reaches_error_handler s3_down_env paris_request sample_world.
Proof.
  intros H. specialize (H s3_down).
  assert (failed_with
            (events sample_world
               (Routes.post_trip_image s3_down_env paris_request
                  sample_world).2) s3_down) as Hfail.
  { right; right; left. exists (Routes.s3_params s3_down_env photo).
    vm_compute. do 3 right; left. }
  specialize (H Hfail). vm_compute in H. discriminate H.
Qed.

(** C3, amended: an error of the insert is handed unchanged to [next], the
    application's error handler; an error of the upload is not: the route
    logs it and answers 500 with a fixed text itself. *)
Theorem errors_surface env req w e :
  ((∃ q, EvQuery q (Throw e)
           ∈ events w (Routes.post_trip_image env req w).2) →
   (Routes.post_trip_image env req w).1 = Forwarded e) ∧
  ((∃ params, EvS3Upload params (Throw e)
                ∈ events w (Routes.post_trip_image env req w).2) →
   (Routes.post_trip_image env req w).1
     = Responded 500 "Error uploading image to S3" ∧
   EvConsole (message e) ∈ events w (Routes.post_trip_image env req w).2).
Proof.
  split.
  - intros [q Hin]. handler_paths env req w;
      rewrite ?events_same, ?events_after in *; elem_cases Hin.
    by injection Hin as _ ->.
  - intros [params Hin]. handler_paths env req w;
      rewrite ?events_same, ?events_after in *; elem_cases Hin.
    injection Hin as _ ->. split; [done|]. unfold classified. set_solver.
Qed.

Lemma errors_surface_witness :
  (∃ params, EvS3Upload params (Throw s3_down)
     ∈ events sample_world
         (Routes.post_trip_image s3_down_env paris_request sample_world).2) ∧
  (Routes.post_trip_image s3_down_env paris_request sample_world).1
    = Responded 500 "Error uploading image to S3" ∧
  (Routes.post_trip_image eiffel_env lost_trip_request sample_world).1
    = Forwarded (DatabaseError "23503").
Proof.
  assert (∃ params, EvS3Upload params (Throw s3_down)
            ∈ events sample_world
                (Routes.post_trip_image s3_down_env paris_request
                   sample_world).2) as H
    by (exists (Routes.s3_params s3_down_env photo); vm_compute;
        do 3 right; left).
  split; [exact H|]. split.
  - exact (proj1 (proj2 (errors_surface s3_down_env paris_request
                           sample_world s3_down) H)).
  - refine (proj1 (errors_surface eiffel_env lost_trip_request sample_world
                     (DatabaseError "23503")) _).
    eexists. vm_compute. do 4 right; left.
Defined.

(** ** Trip.addImage *)



(** ** User.authenticate *)

(** C10: a user object that [User.authenticate] returns has no [password]
    property: it is the first row of the query, which does carry the stored
    hash under [password], with that property deleted. *)
Theorem authenticate_deletes_password bcrypt_compare username password w
    user w' :
  User.authenticate bcrypt_compare username password w = (Ok user, w') →
  user !! "password" = None ∧
  ∃ rows row hash,
    db_query (SelectUserByUsername [VStr username]) (db w) = (Ok rows, db w) ∧
    rows !! 0%nat = Some row ∧
    row !! "password" = Some (VStr hash) ∧
    bcrypt_compare password hash = true ∧
    user = delete "password" row.
Proof.
  unfold User.authenticate, mbind, M_bind, query.
  destruct (db_query _ (db w)) as [[rows|e] d] eqn:Hq; [|done].
  assert (d = db w) as -> by (cbn in Hq; congruence).
  destruct (rows !! 0%nat) as [row|] eqn:Hrow; [|done].
  unfold get. destruct (row !! "password") as [[| |hash|]|] eqn:Hpw;
    cbn [default from_option id]; try done.
  destruct (bcrypt_compare password hash) eqn:Hcmp; [|done].
  intros [= <- <-]. split; [apply lookup_delete_eq|].
  by exists rows, row, hash.
Qed.

Lemma authenticate_deletes_password_witness :
  ∃ user w',
    User.authenticate sample_compare "alice" "secret" sample_world
      = (Ok user, w') ∧
    user !! "password" = None ∧
    get user "username" = VStr "alice".
Proof.
  assert (User.authenticate sample_compare "alice" "secret" sample_world
          = (Ok (delete "password" (project select_user_columns alice)),
             (User.authenticate sample_compare "alice" "secret"
                sample_world).2)) as H
    by (vm_compute; reflexivity).
  eexists _, _. split; [exact H|]. split.
  - exact (proj1 (authenticate_deletes_password sample_compare "alice"
                    "secret" sample_world _ _ H)).
  - vm_compute; reflexivity.
Defined.

(** ** The other methods: shared lemmas *)

Lemma sql_eqb_true a b : sql_eqb a b = true ↔ a = b ∧ is_null a = false.
Proof.
  unfold sql_eqb. rewrite andb_true_iff, negb_true_iff, bool_decide_eq_true.
  tauto.
Qed.

Lemma sql_eqb_num a n : sql_eqb a (VNum n) = true ↔ a = VNum n.
Proof.
  rewrite sql_eqb_true. split; [tauto|]. by intros ->.
Qed.

Lemma sql_eqb_str a x : sql_eqb a (VStr x) = true ↔ a = VStr x.
Proof.
  rewrite sql_eqb_true. split; [tauto|]. by intros ->.
Qed.

Lemma sql_eqb_false a b : sql_eqb a b = false ↔ ¬ (a = b ∧ is_null a = false).
Proof. rewrite <- sql_eqb_true. by destruct (sql_eqb a b). Qed.

Lemma order_by_id_perm rows : order_by_id rows ≡ₚ rows.
Proof. apply merge_sort_Permutation. Qed.

Lemma order_by_id_nil : order_by_id [] = [].
Proof. reflexivity. Qed.

Lemma same_database d :
  mkDatabase (users d) (trips d) (images d) (images_id_seq d) = d.
Proof. by destruct d. Qed.

Lemma same_store s :
  mkStore (tables s) (users_id_seq s) (trips_id_seq s) = s.
Proof. by destruct s. Qed.

Lemma filter_all {A} (P : A → Prop) `{!∀ x, Decision (P x)} (l : list A) :
  Forall P l → filter P l = l.
Proof.
  induction 1 as [|x l Hx _ IH]; [done|].
  by rewrite filter_cons_True, IH.
Qed.

Lemma filter_none {A} (P : A → Prop) `{!∀ x, Decision (P x)} (l : list A) :
  Forall (λ x, ¬ P x) l → filter P l = [].
Proof.
  induction 1 as [|x l Hx _ IH]; [done|].
  by rewrite filter_cons_False, IH.
Qed.

(** The rows of [trips] that [DELETE ... WHERE id = $1] takes. *)
Lemma trip_exists_gone d id :
  trip_exists d id ↔
  filter (λ t, sql_eqb (get t "id") (VNum id) = true) (trips d) ≠ [].
Proof.
  unfold trip_exists. rewrite Exists_exists. split.
  - intros (t & Hin & Hid) Hnil.
    assert (t ∈ filter (λ t, sql_eqb (get t "id") (VNum id) = true) (trips d))
      as Hf by (apply list_elem_of_filter; split; [by apply sql_eqb_num|done]).
    rewrite Hnil in Hf. by apply elem_of_nil in Hf.
  - intros Hne. destruct (filter _ _) as [|t l] eqn:Hf; [done|].
    assert (t ∈ filter (λ t, sql_eqb (get t "id") (VNum id) = true) (trips d))
      as Hin by (rewrite Hf; left).
    apply list_elem_of_filter in Hin as [Hid Hin].
    exists t. split; [done|]. by apply sql_eqb_num.
Qed.

Lemma delete_trip_unknown d id :
  ¬ trip_exists d id → delete_trip (VNum id) d = ([], d).
Proof.
  intros Hno. unfold delete_trip. cbv zeta.
  assert (filter (λ t, sql_eqb (get t "id") (VNum id) = true) (trips d) = [])
    as ->.
  { destruct (filter _ (trips d)) eqn:Hf; [done|].
    exfalso. apply Hno, trip_exists_gone. by rewrite Hf. }
  rewrite fmap_nil.
  rewrite (filter_all (λ t, sql_eqb (get t "id") (VNum id) = false)).
  - rewrite (filter_all (λ i, ¬ Exists _ [])).
    + by rewrite same_database.
    + apply Forall_forall. intros i _ H. by apply Exists_nil in H.
  - apply Forall_forall. intros t Hin.
    destruct (sql_eqb (get t "id") (VNum id)) eqn:E; [|done].
    exfalso. apply Hno, Exists_exists. exists t. split; [done|].
    by apply sql_eqb_num.
Qed.

(** The images that the cascade of a deleted trip leaves. *)
Lemma delete_trip_images d id :
  trip_exists d id →
  images (delete_trip (VNum id) d).2
    = filter (λ i, get i "trip_id" ≠ VNum id) (images d).
Proof.
  intros Hex. unfold delete_trip. cbv zeta. cbn [snd images].
  apply list_filter_iff. intros i. rewrite Exists_exists. split.
  - intros Hnone Heq. apply Hnone.
    apply Exists_exists in Hex as (t & Hin & Hid).
    exists t. split.
    + apply list_elem_of_filter. split; [by apply sql_eqb_num | done].
    + rewrite Hid. by apply sql_eqb_num.
  - intros Hne (t & Hin & Heq). apply Hne.
    apply list_elem_of_filter in Hin as [Hid _].
    apply sql_eqb_num in Hid. rewrite Hid in Heq. by apply sql_eqb_num in Heq.
Qed.

Lemma delete_trip_trips d id :
  trips (delete_trip (VNum id) d).2
    = filter (λ t, get t "id" ≠ VNum id) (trips d).
Proof.
  unfold delete_trip. cbv zeta. cbn [snd trips].
  apply list_filter_iff. intros t. rewrite sql_eqb_false. split.
  - intros H Heq. apply H. split; [done|]. by rewrite Heq.
  - intros H [Heq _]. done.
Qed.

Lemma delete_trip_users d id : users (delete_trip (VNum id) d).2 = users d.
Proof. reflexivity. Qed.

(** The range of an id parameter holds [INTEGER], and is [INTEGER] as long
    as the sequence is. *)
Lemma int4_integer_id last id :
  int4 id = true → integer_id last id = true.
Proof.
  unfold int4, integer_id. rewrite !andb_true_iff, !Z.leb_le. lia.
Qed.

Lemma integer_id_int4 last id :
  int4 last = true → integer_id last id = int4 id.
Proof.
  unfold int4, integer_id. rewrite andb_true_iff, !Z.leb_le. intros H.
  rewrite Z.min_l, Z.max_l by lia. done.
Qed.


(** [Trip.remove] succeeds exactly on the trips that exist. *)
Lemma remove_trip_run id s :
  Trips.remove id s =
    if integer_id (last_trip_id s) id
    then (if decide (trip_exists (tables s) id)
          then Ok ()
          else Throw (NotFoundError ("No trip: " +:+ pretty id)),
          mkStore (delete_trip (VNum id) (tables s)).2
                  (users_id_seq s) (trips_id_seq s))
    else (Throw (DatabaseError "22003"), s).
Proof.
  unfold Trips.remove, mbind, Q_bind, writing, raise.
  destruct (integer_id (last_trip_id s) id); [|done].
  destruct (delete_trip (VNum id) (tables s)) as [rows d] eqn:Hdel.
  cbn [snd]. destruct (decide (trip_exists (tables s) id)) as [Hex | Hno].
  - apply trip_exists_gone in Hex.
    assert (rows ≠ []) as Hrows.
    { unfold delete_trip in Hdel. cbv zeta in Hdel.
      injection Hdel as <- _. by destruct (filter _ _). }
    by destruct rows.
  - rewrite (delete_trip_unknown _ _ Hno) in Hdel. by injection Hdel as <- <-.
Qed.

Lemma remove_trip_ok id s s' :
  Trips.remove id s = (Ok (), s') →
  integer_id (last_trip_id s) id = true ∧
  trip_exists (tables s) id ∧
  s' = mkStore (delete_trip (VNum id) (tables s)).2
               (users_id_seq s) (trips_id_seq s).
Proof.
  rewrite remove_trip_run.
  destruct (integer_id (last_trip_id s) id); [|done].
  destruct (decide (trip_exists (tables s) id)) as [Hex | Hno]; [|done].
  intros H. split; [done|]. split; [done|]. congruence.
Qed.

Lemma getTripImages_run tripId s :
  Trips.getTripImages tripId s
    = (Ok (images_of_trip (VNum tripId) (tables s)), s).
Proof. reflexivity. Qed.

Lemma images_of_trip_none d id :
  Forall (λ i, get i "trip_id" ≠ VNum id) (images d) →
  images_of_trip (VNum id) d = [].
Proof.
  intros H. unfold images_of_trip. rewrite filter_none; [done|].
  eapply Forall_impl; [exact H|]. intros i Hne Heq. by apply sql_eqb_num in Heq.
Qed.

(** ** Trip.remove *)

(** X1: a [Trip.remove] that succeeds takes the trips with that id and,
    by the cascade, their images, and nothing else: the trips left are the
    rows with another id, unchanged and in their order, the images left are
    those of the other trips, unchanged and in their order, and the users
    are as before. So no trip has the id any more, [Trip.getTripImages]
    finds nothing for it, and for every other id it returns what it did. *)
Theorem remove_trip_cascades id s s' :
  Trips.remove id s = (Ok (), s') →
  users (tables s') = users (tables s) ∧
  trips (tables s')
    = filter (λ t, get t "id" ≠ VNum id) (trips (tables s)) ∧
  images (tables s')
    = filter (λ i, get i "trip_id" ≠ VNum id) (images (tables s)) ∧
  ¬ trip_exists (tables s') id ∧
  Trips.getTripImages id s' = (Ok [], s') ∧
  ∀ j, j ≠ id →
    (Trips.getTripImages j s').1 = (Trips.getTripImages j s).1.
Proof.
  intros (_ & Hex & ->)%remove_trip_ok. cbn [tables].
  split; [done|]. split; [apply delete_trip_trips|].
  split; [by apply delete_trip_images|]. split; [|split].
  - unfold trip_exists. rewrite delete_trip_trips, Exists_exists.
    intros (t & Hin & Hid). by apply list_elem_of_filter in Hin as [Hne _].
  - rewrite getTripImages_run. cbn [tables]. rewrite images_of_trip_none; [done|].
    rewrite delete_trip_images by done. apply Forall_forall.
    intros i Hin. by apply list_elem_of_filter in Hin as [Hne _].
  - intros j Hj. rewrite !getTripImages_run. cbn [fst tables]. f_equal.
    unfold images_of_trip. f_equal. rewrite delete_trip_images by done.
    rewrite list_filter_filter. apply list_filter_iff. intros i.
    split; [tauto|]. intros Hi. split; [done|].
    apply sql_eqb_num in Hi. rewrite Hi. congruence.
Qed.

Lemma remove_trip_cascades_witness :
  Trips.remove 7 busy_store
    = (Ok (), mkStore (mkDatabase [alice; bob] [rome_trip] [rome_row] 3) 3 9) ∧
  (Trips.getTripImages 7
     (mkStore (mkDatabase [alice; bob] [rome_trip] [rome_row] 3) 3 9)).1
    = Ok [] ∧
  (Trips.getTripImages 8
     (mkStore (mkDatabase [alice; bob] [rome_trip] [rome_row] 3) 3 9)).1
    = Ok [rome_row].
Proof.
  assert (Trips.remove 7 busy_store
          = (Ok (), mkStore (mkDatabase [alice; bob] [rome_trip] [rome_row] 3)
                            3 9)) as H by (vm_compute; reflexivity).
  split; [exact H|].
  destruct (remove_trip_cascades 7 busy_store _ H)
    as (_ & _ & _ & _ & Hnone & Hother).
  split.
  - rewrite Hnone. reflexivity.
  - rewrite (Hother 8 ltac:(done)). vm_compute; reflexivity.
Defined.

(** X2: [Trip.remove] of an id that no trip has leaves the store as it was
    and throws: [NotFoundError] when the id is an [INTEGER], the driver's
    out-of-range error (22003) when it is not (the sequence of [trips] being
    within [INTEGER], as the database keeps it). *)
Theorem remove_trip_unknown id s :
  ¬ trip_exists (tables s) id →
  (int4 id = true →
   Trips.remove id s
     = (Throw (NotFoundError ("No trip: " +:+ pretty id)), s)) ∧
  (int4 id = false → int4 (last_trip_id s) = true →
   Trips.remove id s = (Throw (DatabaseError "22003"), s)) ∧
  (Trips.remove id s).2 = s.
Proof.
  intros Hno. rewrite remove_trip_run. split; [|split].
  - intros Hint. rewrite (int4_integer_id _ _ Hint).
    destruct (decide (trip_exists (tables s) id)); [done|].
    rewrite delete_trip_unknown by done. cbn [snd]. by rewrite same_store.
  - intros Hout Hseq. by rewrite (integer_id_int4 _ _ Hseq), Hout.
  - destruct (integer_id (last_trip_id s) id); [|done]. cbn [snd].
    rewrite delete_trip_unknown by done. cbn [snd]. by rewrite same_store.
Qed.

Lemma remove_trip_unknown_witness :
  ¬ trip_exists (tables busy_store) 9 ∧
  Trips.remove 9 busy_store
    = (Throw (NotFoundError "No trip: 9"), busy_store) ∧
  Trips.remove 2147483648 busy_store
    = (Throw (DatabaseError "22003"), busy_store).
Proof.
  assert (∀ n, n ≠ 7 → n ≠ 8 → ¬ trip_exists (tables busy_store) n) as Hno.
  { intros n H7 H8 H. apply Exists_cons in H as [H | H].
    - apply H7. by injection H.
    - apply Exists_cons in H as [H | H].
      + apply H8. by injection H.
      + by apply Exists_nil in H. }
  split; [exact (Hno 9 ltac:(done) ltac:(done))|]. split.
  - exact (proj1 (remove_trip_unknown 9 busy_store
                    (Hno 9 ltac:(done) ltac:(done))) eq_refl).
  - exact (proj1 (proj2 (remove_trip_unknown 2147483648 busy_store
                           (Hno 2147483648 ltac:(done) ltac:(done))))
             eq_refl eq_refl).
Defined.

(** X3: after a [Trip.remove] that succeeded, removing the same id again
    throws [NotFoundError] and changes nothing. *)
Theorem remove_trip_twice id s s' :
  Trips.remove id s = (Ok (), s') →
  Trips.remove id s'
    = (Throw (NotFoundError ("No trip: " +:+ pretty id)), s').
Proof.
  intros (Hint & Hex & ->)%remove_trip_ok. rewrite remove_trip_run.
  change (last_trip_id (mkStore _ (users_id_seq s) (trips_id_seq s)))
    with (last_trip_id s).
  rewrite Hint. cbn [tables].
  assert (¬ trip_exists (delete_trip (VNum id) (tables s)).2 id) as Hgone.
  { unfold trip_exists. rewrite delete_trip_trips, Exists_exists.
    intros (t & Hin & Hid). by apply list_elem_of_filter in Hin as [Hne _]. }
  destruct (decide _); [done|].
  rewrite (delete_trip_unknown _ _ Hgone). reflexivity.
Qed.

Lemma remove_trip_twice_witness :
  Trips.remove 7 busy_store
    = (Ok (), mkStore (mkDatabase [alice; bob] [rome_trip] [rome_row] 3) 3 9) ∧
  Trips.remove 7 (mkStore (mkDatabase [alice; bob] [rome_trip] [rome_row] 3)
                          3 9)
    = (Throw (NotFoundError "No trip: 7"),
       mkStore (mkDatabase [alice; bob] [rome_trip] [rome_row] 3) 3 9).
Proof.
  assert (Trips.remove 7 busy_store
          = (Ok (), mkStore (mkDatabase [alice; bob] [rome_trip] [rome_row] 3)
                            3 9)) as H by (vm_compute; reflexivity).
  split; [exact H|]. exact (remove_trip_twice 7 busy_store _ H).
Defined.

(** ** Trip.addImage with Trip.getTripImages and Trip.get *)

Lemma lift_addImage_ok tripId image s r s' :
  lift (Trip.addImage tripId image) s = (Ok r, s') →
  acceptable image ∧ trip_exists (tables s) tripId ∧
  r = Some {[ "id" := VNum (images_id_seq (tables s)) ]} ∧
  s' = mkStore
         (mkDatabase (users (tables s)) (trips (tables s))
            (images (tables s)
             ++ [inserted_row (images_id_seq (tables s)) tripId image])
            (images_id_seq (tables s) + 1))
         (users_id_seq s) (trips_id_seq s).
Proof.
  unfold lift. rewrite addImage_run. cbv zeta. cbn [db after].
  destruct (db_query (addImage_query tripId image) (tables s))
    as [[rows|e] d] eqn:Hq; cbn [fst snd]; [|done].
  destruct (insert_image_Ok_inv _ _ _ _ _ Hq) as [Hok Hex].
  rewrite (insert_image_ok _ _ _ Hok Hex) in Hq.
  injection Hq as <- <-. cbn [lookup]. intros [= <- <-]. done.
Qed.




(** A tag of 26 letters is refused (22001), and no id is drawn. *)
Lemma addImage_long_tag :
  lift (Trip.addImage 7 long_image) sample_store
    = (Throw (DatabaseError "22001"), sample_store).
Proof. vm_compute; reflexivity. Qed.

(** ** Trip.create and Trip.get *)

Lemma get_trip_run id s :
  Trips.get id s =
    if integer_id (last_trip_id s) id
    then match select_trip (VNum id) (tables s) !! 0%nat with
         | Some trip =>
             (Ok (trip, project select_image_columns
                          <$> images_of_trip (VNum id) (tables s)), s)
         | None => (Throw (NotFoundError ("No trip: " +:+ pretty id)), s)
         end
    else (Throw (DatabaseError "22003"), s).
Proof.
  unfold Trips.get, mbind, Q_bind, reading, raise. cbv beta iota.
  destruct (integer_id (last_trip_id s) id); [|done].
  by destruct (select_trip (VNum id) (tables s) !! 0%nat).
Qed.

Lemma elem_of_select_trip row id d :
  row ∈ select_trip (VNum id) d ↔
  ∃ t u, t ∈ trips d ∧ u ∈ users d ∧ get t "id" = VNum id ∧
         get t "user_id" = get u "id" ∧ is_null (get u "id") = false ∧
         row = joined t u.
Proof.
  unfold select_trip. rewrite list_elem_of_bind. split.
  - intros (t & Hrow & Ht). apply list_elem_of_bind in Hrow as (u & Hrow & Hu).
    destruct (sql_eqb (get t "user_id") (get u "id")
              && sql_eqb (get t "id") (VNum id)) eqn:E;
      [|by apply elem_of_nil in Hrow].
    apply andb_true_iff in E as [[E1 E1']%sql_eqb_true E2%sql_eqb_num].
    apply list_elem_of_singleton in Hrow as ->.
    exists t, u. repeat split; try done. by rewrite <- E1.
  - intros (t & u & Ht & Hu & Hid & Hown & Hnn & ->).
    exists t. split; [|done]. apply list_elem_of_bind. exists u. split; [|done].
    assert (sql_eqb (get t "user_id") (get u "id") = true) as ->
      by (apply sql_eqb_true; split; [done | by rewrite Hown]).
    assert (sql_eqb (get t "id") (VNum id) = true) as ->
      by (by apply sql_eqb_num).
    left.
Qed.

Lemma select_trip_nil id d :
  select_trip (VNum id) d = [] ↔ ¬ trip_with_owner d id.
Proof.
  split.
  - intros Hnil (t & u & Ht & Hu & Hid & Hown & Hnn).
    assert (joined t u ∈ select_trip (VNum id) d) as Hin
      by (apply elem_of_select_trip; naive_solver).
    rewrite Hnil in Hin. by apply elem_of_nil in Hin.
  - intros Hno. destruct (select_trip (VNum id) d) as [|row l] eqn:E; [done|].
    exfalso. apply Hno.
    assert (row ∈ select_trip (VNum id) d) as Hin by (rewrite E; left).
    apply elem_of_select_trip in Hin as (t & u & ? & ? & ? & ? & ? & _).
    by exists t, u.
Qed.

(** X5: with an id that is an [INTEGER], [Trip.get] throws
    [NotFoundError] exactly when no trip with the id is joined to a user,
    which covers an id that no trip has and a trip whose [user_id] is null
    or matches no user; with an id that is not, it throws the driver's
    out-of-range error (22003) (the sequence of [trips] being within
    [INTEGER], as the database keeps it). It never changes the store. *)
Theorem get_trip_not_found id s :
  (int4 id = true →
   (¬ trip_with_owner (tables s) id ↔
    Trips.get id s
      = (Throw (NotFoundError ("No trip: " +:+ pretty id)), s))) ∧
  (int4 id = false → int4 (last_trip_id s) = true →
   Trips.get id s = (Throw (DatabaseError "22003"), s)) ∧
  (¬ trip_exists (tables s) id → ¬ trip_with_owner (tables s) id) ∧
  (Trips.get id s).2 = s.
Proof.
  rewrite get_trip_run. split; [|split; [|split]].
  - intros Hint. rewrite (int4_integer_id _ _ Hint), <- select_trip_nil.
    destruct (select_trip (VNum id) (tables s)) as [|row l]; cbn [lookup];
      split; done.
  - intros Hout Hseq. by rewrite (integer_id_int4 _ _ Hseq), Hout.
  - intros Hno (t & u & Ht & _ & Hid & _). apply Hno, Exists_exists. eauto.
  - destruct (integer_id (last_trip_id s) id); [|done].
    by destruct (select_trip (VNum id) (tables s) !! 0%nat).
Qed.

Lemma get_trip_not_found_witness :
  ¬ trip_with_owner (tables busy_store) 9 ∧
  Trips.get 9 busy_store = (Throw (NotFoundError "No trip: 9"), busy_store) ∧
  Trips.get 2147483648 busy_store
    = (Throw (DatabaseError "22003"), busy_store).
Proof.
  assert (Trips.get 9 busy_store
          = (Throw (NotFoundError ("No trip: " +:+ pretty 9)), busy_store))
    as H by (vm_compute; reflexivity).
  split; [|split; [exact H|]].
  - exact (proj2 (proj1 (get_trip_not_found 9 busy_store) eq_refl) H).
  - exact (proj1 (proj2 (get_trip_not_found 2147483648 busy_store))
             eq_refl eq_refl).
Defined.




Lemma references_user_false d uid :
  ¬ user_exists d uid → references_user d (VNum uid) = false.
Proof. intros H. unfold references_user; simpl. by apply bool_decide_eq_false_2. Qed.










(** X8: [Trip.create] only ever fails with an error of the driver, never
    with the [BadRequestError] of its comment: a user id that is not an
    [INTEGER] is out of range (22003) before anything is written; else,
    without a title the insert breaks [NOT NULL] (23502), and with a title
    and a user id that no user has it breaks the foreign key (23503). A
    failed create adds no trip. *)
Theorem create_rejected title userId s :
  (∀ msg, (Trips.create title userId s).1 ≠ Throw (BadRequestError msg)) ∧
  (∀ uid, userId = Some uid → int4 uid = false →
          ¬ user_exists (tables s) uid →
   Trips.create title userId s = (Throw (DatabaseError "22003"), s)) ∧
  (title = None → (∀ uid, userId = Some uid → int4 uid = true) →
   (Trips.create title userId s).1 = Throw (DatabaseError "23502")) ∧
  (∀ uid, title ≠ None → userId = Some uid → int4 uid = true →
          ¬ user_exists (tables s) uid →
   (Trips.create title userId s).1 = Throw (DatabaseError "23503")) ∧
  (∀ e, (Trips.create title userId s).1 = Throw e →
        trips (tables (Trips.create title userId s).2) = trips (tables s)).
Proof.
  unfold Trips.create, mbind, Q_bind, insert_trip. cbv zeta.
  assert (∀ uid, userId = Some uid → int4 uid = false →
                 ¬ user_exists (tables s) uid →
          integer_key (users (tables s)) (num_param userId) = false) as Hout.
  { intros uid -> Hint Hno. unfold integer_key. cbn [num_param].
    rewrite Hint. by apply bool_decide_eq_false_2. }
  assert ((∀ uid, userId = Some uid → int4 uid = true) →
          integer_key (users (tables s)) (num_param userId) = true) as Hin.
  { destruct userId as [uid|]; [|done]. intros H. unfold integer_key.
    cbn [num_param]. by rewrite (H uid eq_refl). }
  destruct (integer_key (users (tables s)) (num_param userId)); cbn [negb].
  - destruct title as [title|]; cbn [str_param is_null].
    + destruct (references_user (tables s) (num_param userId)) eqn:Href;
        cbn [negb fst snd tables]; repeat split; try done.
      * intros uid Hu Hint Hno. by specialize (Hout uid Hu Hint Hno).
      * intros uid _ -> _ Hno. cbn [num_param] in Href.
        by rewrite references_user_false in Href.
      * intros uid Hu Hint Hno. by specialize (Hout uid Hu Hint Hno).
    + repeat split; try done.
      intros uid Hu Hint Hno. by specialize (Hout uid Hu Hint Hno).
  - repeat split; try done.
    + intros _ H. by specialize (Hin H).
    + intros uid _ -> Hint _. exfalso.
      assert (false = true) as Hf; [|done].
      apply Hin. by intros ? [= <-].
Qed.

Lemma create_rejected_witness :
  ¬ user_exists (tables sample_store) 5 ∧
  (Trips.create (Some "Oslo") (Some 5) sample_store).1
    = Throw (DatabaseError "23503") ∧
  trips (tables (Trips.create (Some "Oslo") (Some 5) sample_store).2)
    = trips (tables sample_store) ∧
  Trips.create (Some "Oslo") (Some 2147483648) sample_store
    = (Throw (DatabaseError "22003"), sample_store) ∧
  (Trips.create None (Some 1) sample_store).1
    = Throw (DatabaseError "23502").
Proof.
  assert (∀ n, n ≠ 1 → ¬ user_exists (tables sample_store) n) as Hno.
  { intros n Hn H. apply Exists_cons in H as [H | H].
    - apply Hn. by injection H.
    - by apply Exists_nil in H. }
  split; [exact (Hno 5 ltac:(done))|].
  destruct (create_rejected (Some "Oslo") (Some 5) sample_store)
    as (_ & _ & _ & Hfk & Hsame).
  assert ((Trips.create (Some "Oslo") (Some 5) sample_store).1
          = Throw (DatabaseError "23503")) as H
    by (apply (Hfk 5); [done | done | done | exact (Hno 5 ltac:(done))]).
  split; [exact H|]. split; [exact (Hsame _ H)|]. split.
  - exact (proj1 (proj2 (create_rejected (Some "Oslo") (Some 2147483648)
                           sample_store))
             2147483648 eq_refl eq_refl (Hno 2147483648 ltac:(done))).
  - apply (proj1 (proj2 (proj2 (create_rejected None (Some 1) sample_store))));
      [done|]. by intros ? [= <-].
Defined.

(** ** User.register, User.authenticate and User.get *)

Lemma username_taken_rows d name :
  username_taken d name ↔
  filter (λ u, sql_eqb (get u "username") (VStr name) = true) (users d) ≠ [].
Proof.
  unfold username_taken. rewrite Exists_exists. split.
  - intros (u & Hin & Hname) Hnil.
    assert (u ∈ filter (λ u, sql_eqb (get u "username") (VStr name) = true)
                  (users d)) as Hf
      by (apply list_elem_of_filter; split; [by apply sql_eqb_str|done]).
    rewrite Hnil in Hf. by apply elem_of_nil in Hf.
  - intros Hne. destruct (filter _ _) as [|u l] eqn:Hf; [done|].
    assert (u ∈ filter (λ u, sql_eqb (get u "username") (VStr name) = true)
                  (users d)) as Hin by (rewrite Hf; left).
    apply list_elem_of_filter in Hin as [Hname Hin].
    exists u. split; [done|]. by apply sql_eqb_str.
Qed.

Lemma username_free_rows d name :
  ¬ username_taken d name →
  filter (λ u, sql_eqb (get u "username") (VStr name) = true) (users d) = [].
Proof.
  intros Hfree. destruct (filter _ _) eqn:E; [done|].
  exfalso. apply Hfree, username_taken_rows. by rewrite E.
Qed.

Lemma split_chars_short n str :
  (chars str ≤ n)%nat → split_chars n str = (str, EmptyString).
Proof.
  revert n. induction str as [|a str IH]; intros n Hn; [done|].
  cbn [chars split_chars] in *. destruct (continuation a).
  - by rewrite IH.
  - destruct n as [|n]; [lia|]. rewrite IH by lia. done.
Qed.

Lemma stored_name_short name :
  (chars name ≤ 25)%nat → stored_name name = name.
Proof. intros H. unfold stored_name. by rewrite split_chars_short. Qed.

Lemma stored25_fits str :
  fits_varchar25 (VStr str) = true →
  stored25 (VStr str) = VStr (stored_name str).
Proof.
  unfold fits_varchar25, stored25, stored_name, varchar25.
  destruct (split_chars 25 str) as [kept excess].
  by destruct (all_spaces excess).
Qed.

Lemma fits_short str :
  (chars str ≤ 25)%nat → fits_varchar25 (VStr str) = true.
Proof.
  intros H. unfold fits_varchar25, varchar25.
  by rewrite split_chars_short.
Qed.

Section RegisterLemmas.

Variable bcrypt_hash : string → string.

Lemma register_taken data name s :
  username data = Some name → username_taken (tables s) name →
  Users.register bcrypt_hash data s
    = (Throw (BadRequestError ("Duplicate username: " +:+ name)), s).
Proof.
  intros Hname Htaken%username_taken_rows.
  unfold Users.register, mbind, Q_bind, reading, select_username.
  rewrite Hname. cbn [str_param default from_option id].
  destruct (filter _ (users (tables s))) as [|u l]; [done|]. reflexivity.
Qed.

(** [User.register] with a username that no user has: what the insert
    does. *)
Lemma register_insert data name pw s :
  username data = Some name → password data = Some pw →
  ¬ username_taken (tables s) name →
  Users.register bcrypt_hash data s
    = if negb (forallb fits_varchar25
                 [VStr name; str_param (firstName data);
                  str_param (lastName data)])
      then (Throw (DatabaseError "22001"), s)
      else if bool_decide (Exists (λ u, get u "username" = stored25 (VStr name))
                                  (users (tables s)))
      then (Throw (DatabaseError "23505"),
            mkStore (tables s) (users_id_seq s + 1) (trips_id_seq s))
      else (Ok (Some (registered_user data)),
            with_user (bcrypt_hash pw) data s).
Proof.
  destruct data as [u p f l pi a]. cbn [username password].
  intros -> -> Hfree.
  unfold Users.register, mbind, Q_bind, reading, select_username.
  cbn [username password firstName lastName profImage about str_param].
  rewrite (username_free_rows _ _ Hfree).
  cbn [fmap list_fmap lookup list_lookup].
  unfold insert_user. cbv zeta.
  destruct (negb (forallb fits_varchar25 _)); [done|].
  cbn [is_null orb].
  by destruct (bool_decide (Exists _ (users (tables s)))).
Qed.

Lemma register_free data name pw s :
  username data = Some name → password data = Some pw →
  ¬ username_taken (tables s) name → fits_users data →
  ¬ username_taken (tables s) (stored_name name) →
  Users.register bcrypt_hash data s
    = (Ok (Some (registered_user data)), with_user (bcrypt_hash pw) data s).
Proof.
  intros Hname Hpw Hfree (Hf1 & Hf2 & Hf3) Hstored.
  rewrite (register_insert data name pw s Hname Hpw Hfree).
  rewrite Hname in Hf1. cbn [str_param] in Hf1.
  cbn [forallb]. rewrite Hf1, Hf2, Hf3. cbn [negb andb].
  rewrite stored25_fits by done. by rewrite bool_decide_eq_false_2.
Qed.

(** What a successful [User.register] tells about its input, and what it
    did. *)
Lemma register_Ok_inv data user s s' :
  Users.register bcrypt_hash data s = (Ok user, s') →
  ∃ name pw, username data = Some name ∧ password data = Some pw ∧
             ¬ username_taken (tables s) name ∧ fits_users data ∧
             ¬ username_taken (tables s) (stored_name name) ∧
             user = Some (registered_user data) ∧
             s' = with_user (bcrypt_hash pw) data s.
Proof.
  destruct (username data) as [name|] eqn:Hname.
  - destruct (decide (username_taken (tables s) name)) as [Ht | Hfree].
    + by rewrite (register_taken data name s Hname Ht).
    + destruct (password data) as [pw|] eqn:Hpw.
      * rewrite (register_insert data name pw s Hname Hpw Hfree).
        cbn [forallb].
        destruct (fits_varchar25 (VStr name)) eqn:Hf1; [|done].
        destruct (fits_varchar25 (str_param (firstName data))) eqn:Hf2;
          [|done].
        destruct (fits_varchar25 (str_param (lastName data))) eqn:Hf3;
          [|done].
        cbn [negb andb]. rewrite stored25_fits by done.
        destruct (bool_decide _) eqn:Hex; [done|].
        apply bool_decide_eq_false in Hex.
        intros [= <- <-]. exists name, pw. unfold fits_users.
        rewrite Hname. by cbn [str_param].
      * destruct data as [u p f l pi a]. cbn [username password] in *.
        subst u p.
        unfold Users.register, mbind, Q_bind, reading, select_username.
        cbn [username password str_param].
        rewrite (username_free_rows _ _ Hfree). done.
  - destruct data as [u p f l pi a]. cbn [username] in Hname. subst u.
    unfold Users.register, mbind, Q_bind, reading, select_username.
    cbn [username password firstName lastName profImage about str_param].
    rewrite (filter_none (λ u, sql_eqb (get u "username") VNull = true)).
    + cbn [fmap list_fmap lookup list_lookup].
      destruct p as [pw|]; [|done].
      unfold insert_user. cbv zeta.
      destruct (negb (forallb fits_varchar25 _)); done.
    + apply Forall_forall. intros u _ [E Hnn]%sql_eqb_true.
      by rewrite E in Hnn.
Qed.

End RegisterLemmas.

Lemma authenticate_rows_free d name :
  ¬ username_taken d name →
  filter (λ r, get r "username" = VStr name ∧ VStr name ≠ VNull) (users d)
    = [].
Proof.
  intros Hfree. apply filter_none, Forall_forall. intros u Hin [Hname _].
  apply Hfree, Exists_exists. eauto.
Qed.

Lemma select_user_by_username d name :
  db_query (SelectUserByUsername [VStr name]) d
    = (Ok (project select_user_columns <$>
             filter (λ r, get r "username" = VStr name ∧ VStr name ≠ VNull)
                    (users d)), d).
Proof. reflexivity. Qed.

(** The username of the row that [User.register] stored. *)
Lemma user_row_username id hash data name :
  username data = Some name → fits_users data →
  get (user_row id hash data) "username" = VStr (stored_name name).
Proof.
  intros Hname (Hf & _). rewrite Hname in Hf. cbn [str_param] in Hf.
  destruct data as [u p f l pi a]. cbn [username] in Hname. subst u.
  by rewrite <- stored25_fits.
Qed.

(** [User.authenticate] on the store that [User.register] left, with the
    username as stored. *)
Lemma authenticate_registered (compare : string → string → bool)
    (hash : string → string) data name pw pw' s :
  username data = Some name → fits_users data →
  ¬ username_taken (tables s) (stored_name name) →
  lift (User.authenticate compare (stored_name name) pw')
       (with_user (hash pw) data s)
    = (if compare pw' (hash pw)
       then Ok (registered_user data)
       else Throw (UnauthorizedError "Invalid username/password"),
       with_user (hash pw) data s).
Proof.
  intros Hname Hfits Hfree.
  pose proof (user_row_username (users_id_seq s) (hash pw) data name
                Hname Hfits) as Hrow.
  unfold lift, User.authenticate, mbind, M_bind, query.
  cbn [db]. rewrite select_user_by_username.
  cbn [with_user tables users].
  rewrite filter_app, (authenticate_rows_free _ _ Hfree).
  rewrite filter_cons_True by (split; [exact Hrow | discriminate]).
  cbn [filter list_filter app fmap list_fmap lookup list_lookup].
  change (get (project select_user_columns
                 (user_row (users_id_seq s) (hash pw) data)) "password")
    with (VStr (hash pw)).
  cbv beta iota.
  destruct (compare pw' (hash pw)); reflexivity.
Qed.

(** [User.authenticate] with a username that no user has. *)
Lemma authenticate_unknown (compare : string → string → bool) name pw s :
  ¬ username_taken (tables s) name →
  lift (User.authenticate compare name pw) s
    = (Throw (UnauthorizedError "Invalid username/password"), s).
Proof.
  intros Hfree. unfold lift, User.authenticate, mbind, M_bind, query.
  cbn [db]. rewrite select_user_by_username.
  rewrite (authenticate_rows_free _ _ Hfree).
  cbn [fmap list_fmap lookup list_lookup]. cbv beta iota.
  by destruct s.
Qed.

(** The usernames of the store that [User.register] left. *)
Lemma with_user_taken hash data name n s :
  username data = Some name → fits_users data →
  username_taken (tables (with_user hash data s)) n ↔
  username_taken (tables s) n ∨ n = stored_name name.
Proof.
  intros Hname Hfits. unfold username_taken, with_user. cbn [tables users].
  rewrite Exists_app, Exists_cons, Exists_nil.
  rewrite (user_row_username _ _ _ _ Hname Hfits). naive_solver.
Qed.

(** X9: [User.register] with a username that a user already has throws
    [BadRequestError] naming the username, and leaves the store as it was:
    no row is added and no id is drawn. *)
Theorem register_duplicate hash data name s :
  username data = Some name → username_taken (tables s) name →
  Users.register hash data s
    = (Throw (BadRequestError ("Duplicate username: " +:+ name)), s).
Proof. apply register_taken. Qed.

Lemma register_duplicate_witness :
  username_taken (tables sample_store) "alice" ∧
  Users.register sample_hash
      (mkUserData (Some "alice") (Some "pw") None None None None) sample_store
    = (Throw (BadRequestError "Duplicate username: alice"), sample_store).
Proof.
  assert (username_taken (tables sample_store) "alice") as H
    by (apply Exists_cons_hd; reflexivity).
  split; [exact H|].
  exact (register_duplicate sample_hash
           (mkUserData (Some "alice") (Some "pw") None None None None)
           "alice" sample_store eq_refl H).
Defined.

(** X10: a [User.register] that succeeds returns the user without any
    [password] property and stores one new row whose [password] is the
    bcrypt hash of the password given and whose username is the one given
    cut to 25 characters (the one given when it has no more). With the
    stored username and that password [User.authenticate] then succeeds and
    returns the very object that [User.register] returned; with a password
    that bcrypt does not accept for the stored hash it throws
    [UnauthorizedError], as it does with the username given when the stored
    one is shorter. *)
Theorem register_then_authenticate (hash : string → string)
    (compare : string → string → bool) data name pw user s s' :
  Users.register hash data s = (Ok user, s') →
  username data = Some name → password data = Some pw →
  compare pw (hash pw) = true →
  user = Some (registered_user data) ∧
  registered_user data !! "password" = None ∧
  users (tables s') = (users (tables s)
                       ++ [user_row (users_id_seq s) (hash pw) data])%list ∧
  get (user_row (users_id_seq s) (hash pw) data) "password"
    = VStr (hash pw) ∧
  get (user_row (users_id_seq s) (hash pw) data) "username"
    = VStr (stored_name name) ∧
  ((chars name ≤ 25)%nat → stored_name name = name) ∧
  lift (User.authenticate compare (stored_name name) pw) s'
    = (Ok (registered_user data), s') ∧
  (∀ pw', compare pw' (hash pw) = false →
    lift (User.authenticate compare (stored_name name) pw') s'
      = (Throw (UnauthorizedError "Invalid username/password"), s')) ∧
  (stored_name name ≠ name →
   ∀ pw', lift (User.authenticate compare name pw') s'
            = (Throw (UnauthorizedError "Invalid username/password"), s')).
Proof.
  intros Hreg Hname Hpw Hcmp.
  destruct (register_Ok_inv _ _ _ _ _ Hreg)
    as (name' & pw'' & Hname' & Hpw' & Hfree & Hfits & Hstored & -> & ->).
  assert (name' = name) as -> by congruence.
  assert (pw'' = pw) as -> by congruence.
  split; [done|]. split; [by destruct data|]. split; [reflexivity|].
  split; [by destruct data|].
  split; [by apply user_row_username|].
  split; [apply stored_name_short|]. split; [|split].
  - by rewrite (authenticate_registered compare hash data name pw pw s),
      Hcmp.
  - intros pw' Hbad.
    by rewrite (authenticate_registered compare hash data name pw pw' s),
      Hbad.
  - intros Hcut pw'. apply authenticate_unknown.
    rewrite (with_user_taken _ _ _ _ _ Hname Hfits). naive_solver.
Qed.

Lemma register_then_authenticate_witness :
  ∃ s',
    Users.register sample_hash carol sample_store
      = (Ok (Some (registered_user carol)), s') ∧
    sample_verify "secret" (sample_hash "secret") = true ∧
    lift (User.authenticate sample_verify "carol" "secret") s'
      = (Ok (registered_user carol), s') ∧
    lift (User.authenticate sample_verify "carol" "guess") s'
      = (Throw (UnauthorizedError "Invalid username/password"), s').
Proof.
  eexists.
  assert (Users.register sample_hash carol sample_store
          = (Ok (Some (registered_user carol)),
             with_user (sample_hash "secret") carol sample_store)) as H
    by (vm_compute; reflexivity).
  assert (sample_verify "secret" (sample_hash "secret") = true) as Hc
    by reflexivity.
  split; [exact H|]. split; [exact Hc|].
  destruct (register_then_authenticate sample_hash sample_verify carol
              "carol" "secret" _ _ _ H eq_refl eq_refl Hc)
    as (_ & _ & _ & _ & _ & _ & Hok & Hbad & _).
  split; [exact Hok|]. apply Hbad. reflexivity.
Defined.

(** X11: after a [User.register] that succeeded, registering the stored
    username again (the one given, when it has at most 25 characters),
    whatever the rest of the data, throws [BadRequestError] and changes
    nothing. When the stored username is shorter than the one given,
    registering the one given again passes the duplicate check and fails
    in the insert, on [UNIQUE (username)] (23505), after an id was drawn. *)
Theorem register_twice hash data data' name user s s' :
  Users.register hash data s = (Ok user, s') →
  username data = Some name →
  ((chars name ≤ 25)%nat → stored_name name = name) ∧
  (username data' = Some (stored_name name) →
   Users.register hash data' s'
     = (Throw (BadRequestError ("Duplicate username: "
                                +:+ stored_name name)), s')) ∧
  (stored_name name ≠ name → username data' = Some name →
   password data' ≠ None →
   fits_varchar25 (str_param (firstName data')) = true →
   fits_varchar25 (str_param (lastName data')) = true →
   Users.register hash data' s'
     = (Throw (DatabaseError "23505"),
        mkStore (tables s') (users_id_seq s' + 1) (trips_id_seq s'))).
Proof.
  intros Hreg Hname.
  destruct (register_Ok_inv _ _ _ _ _ Hreg)
    as (name' & pw & Hname'' & Hpw & Hfree & Hfits & Hstored & -> & ->).
  assert (name' = name) as -> by congruence.
  split; [apply stored_name_short|]. split.
  - intros Hname'. apply register_taken; [done|].
    rewrite (with_user_taken _ _ _ _ _ Hname Hfits). by right.
  - intros Hcut Hname' Hpw' Hf2 Hf3.
    destruct (password data') as [pw'|] eqn:Epw; [|done].
    rewrite (register_insert hash data' name pw' _ Hname' Epw).
    + pose proof Hfits as (Hf1 & _). rewrite Hname in Hf1.
      cbn [str_param] in Hf1. cbn [forallb].
      rewrite Hf1, Hf2, Hf3. cbn [negb andb].
      rewrite stored25_fits by done.
      rewrite bool_decide_eq_true_2; [done|].
      apply (with_user_taken _ _ _ _ _ Hname Hfits). by right.
    + rewrite (with_user_taken _ _ _ _ _ Hname Hfits). naive_solver.
Qed.

Lemma register_twice_witness :
  (∃ s',
    Users.register sample_hash carol sample_store
      = (Ok (Some (registered_user carol)), s') ∧
    Users.register sample_hash
        (mkUserData (Some "carol") (Some "other") None None None None) s'
      = (Throw (BadRequestError "Duplicate username: carol"), s')) ∧
  (∃ s',
    Users.register sample_hash dave sample_store
      = (Ok (Some (registered_user dave)), s') ∧
    get (registered_user dave) "username"
      = VStr "abcdefghijklmnopqrstuvwxy" ∧
    Users.register sample_hash dave s'
      = (Throw (DatabaseError "23505"),
         mkStore (tables s') (users_id_seq s' + 1) (trips_id_seq s'))).
Proof.
  split.
  - eexists.
    assert (Users.register sample_hash carol sample_store
            = (Ok (Some (registered_user carol)),
               with_user (sample_hash "secret") carol sample_store)) as H
      by (vm_compute; reflexivity).
    split; [exact H|].
    exact (proj1 (proj2 (register_twice sample_hash carol
             (mkUserData (Some "carol") (Some "other") None None None None)
             "carol" _ _ _ H eq_refl)) eq_refl).
  - eexists.
    assert (Users.register sample_hash dave sample_store
            = (Ok (Some (registered_user dave)),
               with_user (sample_hash "pw") dave sample_store)) as H
      by (vm_compute; reflexivity).
    split; [exact H|]. split; [vm_compute; reflexivity|].
    apply (proj2 (proj2 (register_twice sample_hash dave dave
                           "abcdefghijklmnopqrstuvwxy " _ _ _ H eq_refl)));
      [by vm_compute | reflexivity | discriminate | reflexivity
      | reflexivity].
Defined.

Lemma get_user_run name s :
  Users.get name s =
    match select_user (VStr name) (tables s) !! 0%nat with
    | Some user => (Ok user, s)
    | None => (Throw (NotFoundError ("No user: " +:+ name)), s)
    end.
Proof.
  unfold Users.get, mbind, Q_bind, reading. cbv beta iota.
  by destruct (select_user (VStr name) (tables s) !! 0%nat).
Qed.

Lemma project_get_user_columns u :
  project get_user_columns u !! "password" = None ∧
  get (project get_user_columns u) "username" = col u "username".
Proof. split; reflexivity. Qed.

(** X12: [User.get] throws [NotFoundError] exactly when no user has the
    username; what it returns otherwise is the selection of a stored user
    with that username, which has no [password] property; the store is not
    changed. *)
Theorem get_user_result name s :
  (¬ username_taken (tables s) name ↔
   Users.get name s = (Throw (NotFoundError ("No user: " +:+ name)), s)) ∧
  (∀ user s', Users.get name s = (Ok user, s') →
     s' = s ∧ user !! "password" = None ∧
     ∃ u, u ∈ users (tables s) ∧ get u "username" = VStr name ∧
          user = project get_user_columns u).
Proof.
  rewrite get_user_run. unfold select_user.
  destruct (filter (λ u, sql_eqb (get u "username") (VStr name) = true)
                   (users (tables s))) as [|u l] eqn:E;
    cbn [fmap list_fmap lookup list_lookup].
  - split; [|done]. split; [done|]. intros _ Ht%username_taken_rows. done.
  - split.
    + split; [|done]. intros Hfree. exfalso. apply Hfree, username_taken_rows.
      by rewrite E.
    + intros user s' [= <- <-]. split; [done|]. split; [reflexivity|].
      assert (u ∈ filter (λ u, sql_eqb (get u "username") (VStr name) = true)
                    (users (tables s))) as Hin by (rewrite E; left).
      apply list_elem_of_filter in Hin as [Hname Hin].
      exists u. split; [done|]. split; [by apply sql_eqb_str | done].
Qed.

Lemma get_user_result_witness :
  ¬ username_taken (tables sample_store) "bob" ∧
  Users.get "bob" sample_store
    = (Throw (NotFoundError "No user: bob"), sample_store) ∧
  ∃ user, Users.get "alice" sample_store = (Ok user, sample_store) ∧
          user !! "password" = None.
Proof.
  assert (Users.get "bob" sample_store
          = (Throw (NotFoundError ("No user: " +:+ "bob")), sample_store))
    as Hbob by (vm_compute; reflexivity).
  destruct (get_user_result "bob" sample_store) as [Hiff _].
  split; [exact (proj2 Hiff Hbob)|]. split; [exact Hbob|].
  eexists.
  assert (Users.get "alice" sample_store
          = (Ok (project get_user_columns alice), sample_store)) as Ha
    by (vm_compute; reflexivity).
  split; [exact Ha|].
  destruct (get_user_result "alice" sample_store) as [_ Hok].
  exact (proj1 (proj2 (Hok _ _ Ha))).
Defined.

(** X13: after a [User.register] that succeeded, [User.get] of the
    stored username (the one given, when it has at most 25 characters)
    returns the new user: the id that was drawn, the username, the first
    and the last name as their columns store them, the two other fields,
    and no password. When the stored username is shorter than the one
    given, [User.get] of the one given throws [NotFoundError]. *)
Theorem register_then_get (hash : string → string) data name user s s' :
  Users.register hash data s = (Ok user, s') →
  username data = Some name →
  ((chars name ≤ 25)%nat → stored_name name = name) ∧
  Users.get (stored_name name) s'
    = (Ok (list_to_map
             [("id", VNum (users_id_seq s));
              ("username", VStr (stored_name name));
              ("firstName", stored25 (str_param (firstName data)));
              ("lastName", stored25 (str_param (lastName data)));
              ("profileImage", str_param (profImage data));
              ("about", str_param (about data))]), s') ∧
  (stored_name name ≠ name →
   Users.get name s' = (Throw (NotFoundError ("No user: " +:+ name)), s')).
Proof.
  intros Hreg Hname.
  destruct (register_Ok_inv _ _ _ _ _ Hreg)
    as (name' & pw & Hname' & Hpw & Hfree & Hfits & Hstored & -> & ->).
  assert (name' = name) as -> by congruence.
  split; [apply stored_name_short|]. split.
  - pose proof (user_row_username (users_id_seq s) (hash pw) data name
                  Hname Hfits) as Hrow.
    rewrite get_user_run. unfold select_user, with_user. cbn [tables users].
    rewrite filter_app, (username_free_rows _ _ Hstored).
    rewrite filter_cons_True by (by apply sql_eqb_str).
    cbn [filter list_filter app fmap list_fmap lookup list_lookup].
    destruct Hfits as (Hf1 & _). rewrite Hname in Hf1.
    cbn [str_param] in Hf1. rewrite <- (stored25_fits name Hf1).
    destruct data as [u p f l pi a]. cbn [username] in Hname. subst u.
    reflexivity.
  - intros Hcut. rewrite get_user_run. unfold select_user.
    rewrite username_free_rows; [done|].
    rewrite (with_user_taken _ _ _ _ _ Hname Hfits). naive_solver.
Qed.

Lemma register_then_get_witness :
  ∃ s',
    Users.register sample_hash carol sample_store
      = (Ok (Some (registered_user carol)), s') ∧
    Users.get "carol" s'
      = (Ok (list_to_map
               [("id", VNum 2); ("username", VStr "carol");
                ("firstName", VStr "Carol"); ("lastName", VNull);
                ("profileImage", VNull); ("about", VNull)]), s').
Proof.
  eexists.
  assert (Users.register sample_hash carol sample_store
          = (Ok (Some (registered_user carol)),
             with_user (sample_hash "secret") carol sample_store)) as H
    by (vm_compute; reflexivity).
  split; [exact H|].
  exact (proj1 (proj2 (register_then_get sample_hash carol "carol" _ _ _ H
                         eq_refl))).
Defined.

(** ** User.remove *)

Lemma delete_user_unknown d name :
  ¬ username_taken d name → delete_user (VStr name) d = ([], d).
Proof.
  intros Hfree. unfold delete_user. cbv zeta.
  rewrite (username_free_rows _ _ Hfree), fmap_nil.
  rewrite (filter_all (λ u, sql_eqb (get u "username") (VStr name) = false)).
  - rewrite (filter_all (λ t, ¬ Exists _ [])).
    + rewrite (filter_none (λ t, Exists _ [])).
      * rewrite (filter_all (λ i, ¬ Exists _ [])).
        { by rewrite same_database. }
        apply Forall_forall. intros i _ H. by apply Exists_nil in H.
      * apply Forall_forall. intros t _ H. by apply Exists_nil in H.
    + apply Forall_forall. intros t _ H. by apply Exists_nil in H.
  - apply Forall_forall. intros u Hin.
    destruct (sql_eqb (get u "username") (VStr name)) eqn:E; [|done].
    exfalso. apply Hfree, Exists_exists. exists u. split; [done|].
    by apply sql_eqb_str.
Qed.

Lemma remove_user_run name s :
  Users.remove name s =
    (if decide (username_taken (tables s) name)
     then Ok ()
     else Throw (NotFoundError ("No user: " +:+ name)),
     mkStore (delete_user (VStr name) (tables s)).2
             (users_id_seq s) (trips_id_seq s)).
Proof.
  unfold Users.remove, mbind, Q_bind, writing.
  destruct (delete_user (VStr name) (tables s)) as [rows d] eqn:Hdel.
  cbn [snd]. destruct (decide (username_taken (tables s) name)) as [Ht | Hno].
  - apply username_taken_rows in Ht.
    assert (rows ≠ []) as Hrows.
    { unfold delete_user in Hdel. cbv zeta in Hdel.
      injection Hdel as <- _. by destruct (filter _ (users (tables s))). }
    by destruct rows.
  - rewrite (delete_user_unknown _ _ Hno) in Hdel. by injection Hdel as <- <-.
Qed.

Lemma remove_user_ok name s s' :
  Users.remove name s = (Ok (), s') →
  username_taken (tables s) name ∧
  s' = mkStore (delete_user (VStr name) (tables s)).2
               (users_id_seq s) (trips_id_seq s).
Proof.
  rewrite remove_user_run.
  destruct (decide (username_taken (tables s) name)) as [Hex | Hno]; [|done].
  intros H. split; [done|]. congruence.
Qed.

Lemma delete_user_trips d name t :
  t ∈ trips (delete_user (VStr name) d).2 ↔
  t ∈ trips d ∧ ¬ owned_by name d t.
Proof.
  unfold delete_user. cbv zeta. cbn [snd trips].
  rewrite list_elem_of_filter, Exists_exists. split.
  - intros [Hno Hin]. split; [done|]. intros (u & Hu & Hname & Hown & Hnn).
    apply Hno. exists u. split.
    + apply list_elem_of_filter. split; [by apply sql_eqb_str | done].
    + apply sql_eqb_true. split; [done | by rewrite Hown].
  - intros [Hin Hno]. split; [|done]. intros (u & Hu & Hown).
    apply list_elem_of_filter in Hu as [Hname%sql_eqb_str Hu].
    apply sql_eqb_true in Hown as [Hown Hnn]. apply Hno.
    exists u. repeat split; try done. by rewrite <- Hown.
Qed.

Lemma delete_user_images d name i :
  i ∈ images (delete_user (VStr name) d).2 ↔
  i ∈ images d ∧
  ¬ ∃ t, t ∈ trips d ∧ owned_by name d t ∧
         get i "trip_id" = get t "id" ∧ is_null (get t "id") = false.
Proof.
  unfold delete_user. cbv zeta. cbn [snd images].
  rewrite list_elem_of_filter, Exists_exists. split.
  - intros [Hno Hin]. split; [done|].
    intros (t & Ht & (u & Hu & Hname & Hown & Hnn) & Href & Hnt).
    apply Hno. exists t. split.
    + apply list_elem_of_filter. split; [|done].
      apply Exists_exists. exists u. split.
      * apply list_elem_of_filter. split; [by apply sql_eqb_str | done].
      * apply sql_eqb_true. split; [done | by rewrite Hown].
    + apply sql_eqb_true. split; [done | by rewrite Href].
  - intros [Hin Hno]. split; [|done]. intros (t & Ht & Href).
    apply list_elem_of_filter in Ht as [Hown Ht].
    apply Exists_exists in Hown as (u & Hu & Hown).
    apply list_elem_of_filter in Hu as [Hname%sql_eqb_str Hu].
    apply sql_eqb_true in Hown as [Hown Hnn].
    apply sql_eqb_true in Href as [Href Hnt].
    apply Hno. exists t. split; [done|]. split.
    + exists u. repeat split; try done. by rewrite <- Hown.
    + split; [done | by rewrite <- Href].
Qed.

Lemma delete_user_users d name u :
  u ∈ users (delete_user (VStr name) d).2 ↔
  u ∈ users d ∧ get u "username" ≠ VStr name.
Proof.
  unfold delete_user. cbv zeta. cbn [snd users].
  rewrite list_elem_of_filter, sql_eqb_false. split.
  - intros [Hno Hin]. split; [done|]. intros Heq. apply Hno.
    split; [done | by rewrite Heq].
  - intros [Hin Hne]. split; [|done]. by intros [Heq _].
Qed.

(** X14: a [User.remove] that succeeds takes the user and, by the two
    cascades, every trip of the user with all its images: afterwards
    [User.get] does not find the username, none of those trips is left and
    [Trip.getTripImages] finds nothing for them, while the trips of the
    other users stay. *)
Theorem remove_user_cascades name s s' :
  Users.remove name s = (Ok (), s') →
  Users.get name s'
    = (Throw (NotFoundError ("No user: " +:+ name)), s') ∧
  (∀ t tid, t ∈ trips (tables s) → owned_by name (tables s) t →
     get t "id" = VNum tid →
     (t ∉ trips (tables s')) ∧ Trips.getTripImages tid s' = (Ok [], s')) ∧
  (∀ t, t ∈ trips (tables s) → ¬ owned_by name (tables s) t →
     t ∈ trips (tables s')).
Proof.
  intros [Htaken ->]%remove_user_ok. split; [|split].
  - apply get_user_result. cbn [tables]. unfold username_taken.
    rewrite Exists_exists. intros (u & Hu & Hname).
    by apply delete_user_users in Hu as [_ Hne].
  - intros t tid Ht Hown Hid. cbn [tables]. split.
    + rewrite delete_user_trips. tauto.
    + rewrite getTripImages_run. cbn [tables].
      rewrite images_of_trip_none; [done|].
      apply Forall_forall. intros i Hi Href.
      apply delete_user_images in Hi as [_ Hno]. apply Hno.
      exists t. rewrite Hid. done.
  - intros t Ht Hno. cbn [tables]. by apply delete_user_trips.
Qed.

Lemma remove_user_cascades_witness :
  Users.remove "alice" busy_store
    = (Ok (), mkStore (mkDatabase [bob] [rome_trip] [rome_row] 3) 3 9) ∧
  Users.get "alice" (mkStore (mkDatabase [bob] [rome_trip] [rome_row] 3) 3 9)
    = (Throw (NotFoundError "No user: alice"),
       mkStore (mkDatabase [bob] [rome_trip] [rome_row] 3) 3 9).
Proof.
  assert (Users.remove "alice" busy_store
          = (Ok (), mkStore (mkDatabase [bob] [rome_trip] [rome_row] 3) 3 9))
    as H by (vm_compute; reflexivity).
  split; [exact H|].
  exact (proj1 (remove_user_cascades "alice" busy_store _ H)).
Defined.

(** X15: [User.remove] of a username that no user has throws
    [NotFoundError] and leaves the store as it was. *)
Theorem remove_user_unknown name s :
  ¬ username_taken (tables s) name →
  Users.remove name s = (Throw (NotFoundError ("No user: " +:+ name)), s).
Proof.
  intros Hno. rewrite remove_user_run.
  destruct (decide (username_taken (tables s) name)); [done|].
  rewrite delete_user_unknown by done. cbn [snd]. by rewrite same_store.
Qed.

Lemma remove_user_unknown_witness :
  ¬ username_taken (tables sample_store) "bob" ∧
  Users.remove "bob" sample_store
    = (Throw (NotFoundError "No user: bob"), sample_store).
Proof.
  assert (¬ username_taken (tables sample_store) "bob") as Hno.
  { intros H. apply Exists_cons in H as [H | H]; [discriminate H|].
    by apply Exists_nil in H. }
  split; [exact Hno|]. exact (remove_user_unknown "bob" sample_store Hno).
Defined.

(** ** The integrity of the store *)

Lemma references_trip_spec d v :
  references_trip d v = true ↔
  is_null v = true ∨ ∃ t, t ∈ trips d ∧ get t "id" = v.
Proof.
  unfold references_trip.
  by rewrite orb_true_iff, bool_decide_eq_true, Exists_exists.
Qed.

Lemma references_user_spec d v :
  references_user d v = true ↔
  is_null v = true ∨ ∃ u, u ∈ users d ∧ get u "id" = v.
Proof.
  unfold references_user.
  by rewrite orb_true_iff, bool_decide_eq_true, Exists_exists.
Qed.

Lemma id_below_mono seq seq' r : seq ≤ seq' → id_below seq r → id_below seq' r.
Proof. intros Hle (n & Hn & Hlt). exists n. split; [done | lia]. Qed.

(** Integrity, row by row. *)
Lemma Integrity_rows s :
  Integrity s ↔
  (∀ i, i ∈ images (tables s) →
        (is_null (get i "trip_id") = true ∨
         ∃ t, t ∈ trips (tables s) ∧ get t "id" = get i "trip_id") ∧
        id_below (images_id_seq (tables s)) i) ∧
  (∀ t, t ∈ trips (tables s) →
        (is_null (get t "user_id") = true ∨
         ∃ u, u ∈ users (tables s) ∧ get u "id" = get t "user_id") ∧
        id_below (trips_id_seq s) t) ∧
  (∀ u, u ∈ users (tables s) → id_below (users_id_seq s) u).
Proof.
  unfold Integrity. rewrite !Forall_forall.
  setoid_rewrite references_trip_spec. setoid_rewrite references_user_spec.
  naive_solver.
Qed.

(** Drawing ids keeps the integrity. *)
Lemma Integrity_drawn s d useq tseq :
  Integrity s →
  users d = users (tables s) → trips d = trips (tables s) →
  images d = images (tables s) →
  images_id_seq (tables s) ≤ images_id_seq d →
  users_id_seq s ≤ useq → trips_id_seq s ≤ tseq →
  Integrity (mkStore d useq tseq).
Proof.
  rewrite !Integrity_rows. cbn [tables users_id_seq trips_id_seq].
  intros (Hi & Ht & Hu) -> -> -> Hiseq Huseq Htseq. split; [|split].
  - intros i Hin. destruct (Hi i Hin) as [Href Hid].
    split; [done|]. by eapply id_below_mono.
  - intros t Hin. destruct (Ht t Hin) as [Href Hid].
    split; [done|]. by eapply id_below_mono.
  - intros u Hin. eapply id_below_mono; [done|]. by apply Hu.
Qed.

Lemma Integrity_addImage tripId image s :
  Integrity s → Integrity (lift (Trip.addImage tripId image) s).2.
Proof.
  intros HI.
  destruct (lift (Trip.addImage tripId image) s) as [[r|e] s'] eqn:Hrun.
  - apply lift_addImage_ok in Hrun as (_ & Hex & _ & ->). cbn [snd].
    apply Integrity_rows in HI as (Hi & Ht & Hu).
    apply Integrity_rows. cbn [tables images trips users images_id_seq
                                users_id_seq trips_id_seq].
    split; [|split; [done|done]].
    intros i [Hin | ->%list_elem_of_singleton]%elem_of_app.
    + destruct (Hi i Hin) as [Href Hid]. split; [done|].
      eapply id_below_mono; [|done]. lia.
    + split.
      * right. apply Exists_exists in Hex as (t & Hin & Hid). by exists t.
      * eexists. split; [reflexivity | lia].
  - cbn [snd]. unfold lift in Hrun. rewrite addImage_run in Hrun.
    cbv zeta in Hrun. cbn [db after] in Hrun.
    destruct (db_query (addImage_query tripId image) (tables s))
      as [[rows|e'] d] eqn:Hq; cbn [fst snd] in Hrun; [done|].
    apply insert_image_throw in Hq as [[-> | ->] _]; injection Hrun as _ <-.
    + by rewrite same_store.
    + apply (Integrity_drawn s); try done; cbn [draw_id images_id_seq]; lia.
Qed.

Lemma Integrity_create title userId s :
  Integrity s → Integrity (Trips.create title userId s).2.
Proof.
  intros HI. unfold Trips.create, mbind, Q_bind, insert_trip. cbv zeta.
  destruct (integer_key (users (tables s)) (num_param userId));
    cbn [negb snd]; [|done].
  destruct (is_null (str_param title)) eqn:Hnull; cbn [snd].
  { apply (Integrity_drawn s); try done; lia. }
  destruct (references_user (tables s) (num_param userId)) eqn:Href;
    cbn [negb snd].
  2: { apply (Integrity_drawn s); try done; lia. }
  unfold mret, Q_ret. cbn [snd].
  apply references_user_spec in Href.
  apply Integrity_rows in HI as (Hi & Ht & Hu).
  apply Integrity_rows. cbn [tables images trips users images_id_seq
                              users_id_seq trips_id_seq].
  split; [|split; [|done]].
  - intros i Hin. destruct (Hi i Hin) as [[Hn | (t & Htin & Hid)] Hbelow].
    + split; [by left | done].
    + split; [|done]. right. exists t. split; [|done].
      apply elem_of_app. by left.
  - intros t [Hin | ->%list_elem_of_singleton]%elem_of_app.
    + destruct (Ht t Hin) as [Hr Hid]. split; [done|].
      eapply id_below_mono; [|done]. lia.
    + split; [exact Href|]. eexists. split; [reflexivity | lia].
Qed.

Lemma delete_trip_images_elem d id i :
  i ∈ images (delete_trip (VNum id) d).2 ↔
  i ∈ images d ∧ ¬ (get i "trip_id" = VNum id ∧ trip_exists d id).
Proof.
  unfold delete_trip. cbv zeta. cbn [snd images].
  rewrite list_elem_of_filter, Exists_exists. split.
  - intros [Hno Hin]. split; [done|]. intros [Href Hex]. apply Hno.
    apply Exists_exists in Hex as (t & Ht & Hid). exists t. split.
    + apply list_elem_of_filter. split; [by apply sql_eqb_num | done].
    + rewrite Hid. by apply sql_eqb_num.
  - intros [Hin Hno]. split; [|done]. intros (t & Ht & Href).
    apply list_elem_of_filter in Ht as [Hid%sql_eqb_num Ht]. apply Hno.
    rewrite Hid in Href. apply sql_eqb_num in Href. split; [done|].
    apply Exists_exists. eauto.
Qed.

Lemma Integrity_remove_trip id s :
  Integrity s → Integrity (Trips.remove id s).2.
Proof.
  intros HI. rewrite remove_trip_run.
  destruct (integer_id (last_trip_id s) id); [|done]. cbn [snd].
  apply Integrity_rows in HI as (Hi & Ht & Hu).
  apply Integrity_rows. cbn [tables users_id_seq trips_id_seq].
  split; [|split; [|done]].
  - intros i [Hin Hno]%delete_trip_images_elem.
    destruct (Hi i Hin) as [[Hn | (t & Htin & Hid)] Hbelow].
    + split; [by left | done].
    + split; [|done]. right. exists t. split; [|done].
      rewrite delete_trip_trips. apply list_elem_of_filter. split; [|done].
      intros Heq. apply Hno. split; [congruence|].
      apply Exists_exists. eauto.
  - intros t Hin. rewrite delete_trip_trips in Hin.
    apply list_elem_of_filter in Hin as [_ Hin]. by apply Ht.
Qed.

Lemma Integrity_remove_user name s :
  Integrity s → Integrity (Users.remove name s).2.
Proof.
  intros HI. rewrite remove_user_run. cbn [snd].
  apply Integrity_rows in HI as (Hi & Ht & Hu).
  apply Integrity_rows. cbn [tables users_id_seq trips_id_seq].
  split; [|split].
  - intros i [Hin Hno]%delete_user_images.
    destruct (Hi i Hin) as [[Hn | (t & Htin & Hid)] Hbelow].
    + split; [by left | done].
    + split; [|done].
      destruct (is_null (get i "trip_id")) eqn:Hnull; [by left|].
      right. exists t. split; [|done].
      apply delete_user_trips. split; [done|]. intros Hown. apply Hno.
      exists t. repeat split; try done. by rewrite Hid.
  - intros t [Hin Hno]%delete_user_trips.
    destruct (Ht t Hin) as [[Hn | (u & Huin & Hid)] Hbelow].
    + split; [by left | done].
    + split; [|done].
      destruct (is_null (get t "user_id")) eqn:Hnull; [by left|].
      right. exists u. split; [|done].
      apply delete_user_users. split; [done|]. intros Hname. apply Hno.
      exists u. repeat split; try done. by rewrite Hid.
  - intros u [Hin _]%delete_user_users. by apply Hu.
Qed.

Lemma Integrity_register (hash : string → string) data s :
  Integrity s → Integrity (Users.register hash data s).2.
Proof.
  intros HI.
  destruct (Users.register hash data s) as [[user|e] s'] eqn:Hreg; cbn [snd].
  - destruct (register_Ok_inv _ _ _ _ _ Hreg)
      as (name & pw & _ & _ & _ & _ & _ & _ & ->).
    apply Integrity_rows in HI as (Hi & Ht & Hu).
    apply Integrity_rows. unfold with_user.
    cbn [tables images trips users images_id_seq users_id_seq trips_id_seq].
    split; [done|]. split.
    + intros t Hin. destruct (Ht t Hin) as [[Hn | (u & Huin & Hid)] Hbelow].
      * split; [by left | done].
      * split; [|done]. right. exists u. split; [|done].
        apply elem_of_app. by left.
    + intros u [Hin | ->%list_elem_of_singleton]%elem_of_app.
      * eapply id_below_mono; [|by apply Hu]. lia.
      * eexists. split; [reflexivity | lia].
  - revert Hreg.
    unfold Users.register, mbind, Q_bind, reading, raise.
    destruct (select_username _ _ !! 0%nat).
    { intros [= _ <-]. done. }
    destruct (password data) as [pw|]; [|by intros [= _ <-]].
    unfold insert_user. cbv zeta.
    repeat match goal with
           | |- context [if ?b then _ else _] => destruct b
           end; intros [= _ <-];
      apply (Integrity_drawn s); try done; lia.
Qed.

(** X16: every method that changes the store keeps its integrity, whether
    it succeeds or throws: afterwards every image still points to a trip
    that exists, every trip to a user that exists (or to none), and every id
    is below its sequence. *)
Theorem Integrity_preserved (hash : string → string) s :
  Integrity s →
  (∀ tripId image, Integrity (lift (Trip.addImage tripId image) s).2) ∧
  (∀ title userId, Integrity (Trips.create title userId s).2) ∧
  (∀ id, Integrity (Trips.remove id s).2) ∧
  (∀ data, Integrity (Users.register hash data s).2) ∧
  (∀ name, Integrity (Users.remove name s).2).
Proof.
  intros HI. split; [|split; [|split; [|split]]]; intros.
  - by apply Integrity_addImage.
  - by apply Integrity_create.
  - by apply Integrity_remove_trip.
  - by apply Integrity_register.
  - by apply Integrity_remove_user.
Qed.

Lemma busy_store_Integrity : Integrity busy_store.
Proof.
  apply Integrity_rows. split; [|split].
  - intros i Hin. apply elem_of_cons in Hin as [-> | Hin];
      [|apply list_elem_of_singleton in Hin as ->].
    + split; [right; exists paris_trip; split; [left | reflexivity]|].
      eexists; split; reflexivity.
    + split; [right; exists rome_trip; split; [right; left | reflexivity]|].
      eexists; split; reflexivity.
  - intros t Hin. apply elem_of_cons in Hin as [-> | Hin];
      [|apply list_elem_of_singleton in Hin as ->].
    + split; [right; exists alice; split; [left | reflexivity]|].
      eexists; split; reflexivity.
    + split; [right; exists bob; split; [right; left | reflexivity]|].
      eexists; split; reflexivity.
  - intros u Hin. apply elem_of_cons in Hin as [-> | Hin];
      [|apply list_elem_of_singleton in Hin as ->];
      eexists; split; reflexivity.
Defined.

Lemma Integrity_preserved_witness :
  Integrity busy_store ∧
  Integrity (Users.remove "alice" busy_store).2 ∧
  Integrity (Trips.remove 7 busy_store).2.
Proof.
  split; [exact busy_store_Integrity|].
  destruct (Integrity_preserved sample_hash busy_store busy_store_Integrity)
    as (_ & _ & Hrt & _ & Hru).
  split; [exact (Hru "alice") | exact (Hrt 7)].
Defined.

(** ** Trip.addImage with Trip.get *)

(** X17: after a [Trip.addImage] that succeeded, [Trip.get] of a trip it
    could already return gives the same trip row, and its images are those
    it gave before and the new one, as [id], [fileUrl], [caption] and
    [tag1] to [tag3], the tags as their [VARCHAR(25)] columns store
    them. *)
Theorem addImage_then_get tripId image s r s' trip imgs :
  lift (Trip.addImage tripId image) s = (Ok r, s') →
  Trips.get tripId s = (Ok (trip, imgs), s) →
  ∃ imgs',
    Trips.get tripId s' = (Ok (trip, imgs'), s') ∧
    imgs' ≡ₚ imgs ++
      [list_to_map [("id", VNum (images_id_seq (tables s)));
                    ("fileUrl", sql_param (get image "file_url"));
                    ("caption", sql_param (get image "caption"));
                    ("tag1", stored25 (sql_param (get image "tag1")));
                    ("tag2", stored25 (sql_param (get image "tag2")));
                    ("tag3", stored25 (sql_param (get image "tag3")))]].
Proof.
  intros (_ & _ & _ & ->)%lift_addImage_ok. rewrite !get_trip_run.
  unfold last_trip_id. cbn [tables trips_id_seq].
  destruct (integer_id (trips_id_seq s - 1) tripId); [|done].
  change (select_trip (VNum tripId)
            (mkDatabase (users (tables s)) (trips (tables s))
               (images (tables s)
                ++ [inserted_row (images_id_seq (tables s)) tripId image])
               (images_id_seq (tables s) + 1)))
    with (select_trip (VNum tripId) (tables s)).
  destruct (select_trip (VNum tripId) (tables s) !! 0%nat) as [row|]; [|done].
  intros [= -> <-]. eexists. split; [reflexivity|].
  unfold images_of_trip. cbn [images].
  rewrite filter_app, filter_cons_True by (by apply sql_eqb_num).
  rewrite !order_by_id_perm, fmap_app. reflexivity.
Qed.

Lemma addImage_then_get_witness :
  ∃ s' imgs,
    lift (Trip.addImage 7 paris_image) sample_store
      = (Ok (Some {[ "id" := VNum 1 ]}), s') ∧
    Trips.get 7 s'
      = (Ok (list_to_map [("id", VNum 7); ("title", VStr "Paris");
                          ("userId", VNum 1); ("username", VStr "alice")],
             imgs), s') ∧
    imgs ≡ₚ [list_to_map
               [("id", VNum 1);
                ("fileUrl", VStr "https://example.org/paris.jpg");
                ("caption", VStr "At the tower");
                ("tag1", VStr "Eiffel Tower"); ("tag2", VStr "tower");
                ("tag3", VStr "sky")]].
Proof.
  assert (lift (Trip.addImage 7 paris_image) sample_store
          = (Ok (Some {[ "id" := VNum 1 ]}),
             mkStore (mkDatabase [alice] [paris_trip] [paris_row] 2) 2 8)) as H
    by (vm_compute; reflexivity).
  assert (Trips.get 7 sample_store
          = (Ok (list_to_map [("id", VNum 7); ("title", VStr "Paris");
                              ("userId", VNum 1); ("username", VStr "alice")],
                 []), sample_store)) as Hg
    by (vm_compute; reflexivity).
  destruct (addImage_then_get 7 paris_image sample_store _ _ _ _ H Hg)
    as (imgs' & Hget & Hperm).
  exists (mkStore (mkDatabase [alice] [paris_trip] [paris_row] 2) 2 8), imgs'.
  split; [exact H|]. split; [exact Hget | exact Hperm].
Defined.
